(** * mcp-server-github-repo: a shallow embedding of [src/index.ts]

    The bridge exposes one GitHub repository as read-only MCP resources.
    This file embeds the server factory [createGithubRepoServer], its two
    content-access closures [listFiles] and [getFileContent], the three
    request handlers and the process entry point [runServer], and proves
    the properties the specification states about them.

    Conventions
    - a JavaScript string is its sequence of UTF-16 code units ([jsstring]);
    - a JavaScript value is a [value] (the JSON values plus [undefined]);
    - code that may throw or call the network runs in the monad [M]:
      it threads the log of outbound requests and returns [inl e] for a
      thrown [e];
    - the runtime's [fetch] and WHATWG [URL] class are parameters of the
      development (Section variables); [Buffer], [String.prototype.split]
      and the zod schemas are modelled concretely. *)

From Stdlib Require Import ZArith List String Ascii Bool Lia ZifyBool PrimFloat.
Import ListNotations.
Local Open Scope Z_scope.

(** ** JavaScript strings and values *)

Definition jsstring := list Z.

(** A source-code string literal (ASCII) as a JavaScript string. *)
Definition lit (s : string) : jsstring :=
  map (fun a => Z.of_N (N_of_ascii a)) (list_ascii_of_string s).
Arguments lit s%_string : simpl never.

Fixpoint jsstring_eqb (a b : jsstring) : bool :=
  match a, b with
  | [], [] => true
  | x :: a', y :: b' => (x =? y) && jsstring_eqb a' b'
  | _, _ => false
  end.

#[local] Unset Elimination Schemes.
Inductive value :=
| VUndefined
| VNull
| VBoolean (b : bool)
| VNumber (x : float)
| VString (s : jsstring)
| VArray (items : list value)
| VObject (props : list (jsstring * value)).
#[local] Set Elimination Schemes.

(** What the program can throw: its own [new Error(msg)], the runtime's
    [TypeError] (property of [null], invalid URL, failed fetch), the
    [SyntaxError] of [response.json()] and zod's [ZodError]. *)
Inductive exn :=
| Error (message : jsstring)
| TypeError
| SyntaxError
| ZodError.

(** [!s] for a string: only the empty string is falsy. *)
Definition truthy (s : jsstring) : bool :=
  match s with [] => false | _ :: _ => true end.

(** [if (x)] for [x : string | undefined]. *)
Definition truthy_opt (x : option jsstring) : bool :=
  match x with Some s => truthy s | None => false end.

(** [`${x}`] for [x : string | undefined]. *)
Definition template (x : option jsstring) : jsstring :=
  match x with Some s => s | None => lit "undefined" end.

(** A [string | undefined] that a preceding [if (!x)] guard has narrowed to
    [string]. *)
Definition narrowed (x : option jsstring) : jsstring :=
  match x with Some s => s | None => [] end.

Fixpoint lookup (k : jsstring) (props : list (jsstring * value)) : option value :=
  match props with
  | [] => None
  | (k', v) :: rest => if jsstring_eqb k k' then Some v else lookup k rest
  end.

(** [o.k] for the keys this program reads ([path], [type]): none of them is
    defined on a prototype, so only an object's own property is found;
    reading a property of [null] or [undefined] throws. *)
Definition get_prop (o : value) (k : jsstring) : exn + value :=
  match o with
  | VUndefined | VNull => inl TypeError
  | VObject props =>
      match lookup k props with Some v => inr v | None => inr VUndefined end
  | _ => inr VUndefined
  end.

(** [v === s] for a string literal [s]. *)
Definition strict_eq_string (v : value) (s : jsstring) : bool :=
  match v with VString t => jsstring_eqb t s | _ => false end.

(** [Array.isArray]. *)
Definition isArray (v : value) : bool :=
  match v with VArray _ => true | _ => false end.

(** *** [String.prototype.split] with a string separator

    [split_from sep skip cur s] scans [s]; [cur] is the current piece in
    reverse, [skip] counts the code units of a separator just matched that
    are still to be passed over. *)
Fixpoint is_prefix (p s : jsstring) : bool :=
  match p, s with
  | [], _ => true
  | x :: p', y :: s' => (x =? y) && is_prefix p' s'
  | _ :: _, [] => false
  end.

Fixpoint split_from (sep : jsstring) (skip : nat) (cur : jsstring) (s : jsstring)
  : list jsstring :=
  match s with
  | [] => [rev cur]
  | c :: s' =>
      match skip with
      | S k => split_from sep k cur s'
      | O =>
          if is_prefix sep s
          then rev cur :: split_from sep (Nat.pred (List.length sep)) [] s'
          else split_from sep O (c :: cur) s'
      end
  end.

Definition split (s sep : jsstring) : list jsstring :=
  match sep with
  | [] => map (fun c => [c]) s
  | _ :: _ => split_from sep O [] s
  end.

(** [a[i]]: [None] is [undefined]. *)
Definition at_index {A} (a : list A) (i : nat) : option A := nth_error a i.

(** ** The effect monad *)

Record Request := {
  req_url : jsstring;
  req_headers : list (jsstring * jsstring)
}.

(** A [fetch] response as far as the program looks at it; [json] is the
    result of [response.json()], [None] when the body is not JSON. *)
Record Response := {
  ok : bool;
  statusText : jsstring;
  json : option value
}.

(** The network answers a request given the requests made so far; [None]
    is a rejected [fetch] (no response at all). *)
Definition Network := list Request -> Request -> option Response.

Definition M (A : Type) : Type := list Request -> (exn + A) * list Request.

Definition ret {A} (a : A) : M A := fun log => (inr a, log).
Definition throw {A} (e : exn) : M A := fun log => (inl e, log).
Definition bind {A B} (m : M A) (k : A -> M B) : M B :=
  fun log =>
    match m log with
    | (inr a, log') => k a log'
    | (inl e, log') => (inl e, log')
    end.
Definition lift {A} (r : exn + A) : M A :=
  match r with inr a => ret a | inl e => throw e end.

Notation "x <- m ;; k" := (bind m (fun x => k))
  (at level 61, m at next level, right associativity).

(** [xs.map(f)] for a callback that may throw. *)
Fixpoint mapM {A B} (f : A -> M B) (xs : list A) : M (list B) :=
  match xs with
  | [] => ret []
  | x :: xs' => y <- f x ;; ys <- mapM f xs' ;; ret (y :: ys)
  end.

(** ** [Buffer.from(s, "base64").toString("utf8")]

    Node's base64 decoder accepts both the standard and the URL-safe
    alphabet, passes over every other code unit (line breaks included),
    stops at the first [=] and drops trailing bits that do not fill a
    byte.  Its UTF-8 decoder replaces every ill-formed subsequence by U+FFFD
    and keeps a leading byte-order mark. *)
Module Buffer.

Definition unbase64 (c : Z) : option Z :=
  if (65 <=? c) && (c <=? 90) then Some (c - 65)             (* A-Z *)
  else if (97 <=? c) && (c <=? 122) then Some (c - 71)       (* a-z *)
  else if (48 <=? c) && (c <=? 57) then Some (c + 4)         (* 0-9 *)
  else if (c =? 43) || (c =? 45) then Some 62                (* + - *)
  else if (c =? 47) || (c =? 95) then Some 63                (* / _ *)
  else None.

(** The 6-bit values of the legal characters before the first [=]; the
    decoder looks at the low byte of each code unit. *)
Fixpoint sextets (s : jsstring) : list Z :=
  match s with
  | [] => []
  | c :: s' =>
      let c := c mod 256 in
      if c =? 61 then []
      else match unbase64 c with
           | Some v => v :: sextets s'
           | None => sextets s'
           end
  end.

(** Four sextets make three bytes; a final group of three makes two, of
    two makes one, and a single left-over sextet makes none. *)
Fixpoint pack (l : list Z) : list Z :=
  match l with
  | a :: b :: c :: d :: rest =>
      (a * 4 + b / 16) :: ((b mod 16) * 16 + c / 4) :: ((c mod 4) * 64 + d)
      :: pack rest
  | [a; b; c] => [a * 4 + b / 16; (b mod 16) * 16 + c / 4]
  | [a; b] => [a * 4 + b / 16]
  | _ => []
  end.

(** [Buffer.from(s, "base64")]: the bytes, each in [0, 255]. *)
Definition from_base64 (s : jsstring) : list Z := pack (sextets s).

(** The UTF-8 decoder's state between two bytes: idle, or inside a
    sequence with the code point bits read so far, the number of
    continuation bytes still expected after the next one, and the range
    the next byte must lie in. *)
Inductive utf8_state :=
| Idle
| Pending (cp : Z) (more : nat) (lower upper : Z).

Definition replacement : Z := 65533.

(** A byte met in the idle state: what is emitted and the next state. *)
Definition lead (b : Z) : list Z * utf8_state :=
  if b <=? 127 then ([b], Idle)
  else if (194 <=? b) && (b <=? 223) then ([], Pending (b - 192) 0 128 191)
  else if (224 <=? b) && (b <=? 239) then
    ([], Pending (b - 224) 1
           (if b =? 224 then 160 else 128) (if b =? 237 then 159 else 191))
  else if (240 <=? b) && (b <=? 244) then
    ([], Pending (b - 240) 2
           (if b =? 240 then 144 else 128) (if b =? 244 then 143 else 191))
  else ([replacement], Idle).

(** The code points of a byte sequence. *)
Fixpoint utf8_decode (st : utf8_state) (bs : list Z) : list Z :=
  match bs with
  | [] => match st with Idle => [] | Pending _ _ _ _ => [replacement] end
  | b :: bs' =>
      match st with
      | Idle => let (out, st') := lead b in out ++ utf8_decode st' bs'
      | Pending cp more lower upper =>
          if (lower <=? b) && (b <=? upper) then
            let cp' := cp * 64 + (b - 128) in
            match more with
            | O => cp' :: utf8_decode Idle bs'
            | S k => utf8_decode (Pending cp' k 128 191) bs'
            end
          else
            let (out, st') := lead b in
            replacement :: out ++ utf8_decode st' bs'
      end
  end.

(** A code point as UTF-16 code units. *)
Definition utf16_units (cp : Z) : jsstring :=
  if cp <? 65536 then [cp]
  else [55296 + (cp - 65536) / 1024; 56320 + (cp - 65536) mod 1024].

(** [buf.toString("utf8")]. *)
Definition toString_utf8 (bs : list Z) : jsstring :=
  flat_map utf16_units (utf8_decode Idle bs).

End Buffer.

(** ** The zod schemas *)

(** [z.string()] and [z.number()] on one property; a missing property reads
    as [undefined] and is rejected. *)
Definition z_string (v : option value) : option jsstring :=
  match v with Some (VString s) => Some s | _ => None end.

Definition z_number (v : option value) : option float :=
  match v with
  | Some (VNumber x) => if is_nan x then None else Some x
  | _ => None
  end.

(** [z.string().nullable()]. *)
Definition z_string_nullable (v : option value) : option (option jsstring) :=
  match v with
  | Some (VString s) => Some (Some s)
  | Some VNull => Some None
  | _ => None
  end.

Notation "x <-? m ; k" := (match m with Some x => k | None => None end)
  (at level 61, m at next level, right associativity).

Record GitHubFileContent := {
  file_type : jsstring;
  file_encoding : jsstring;
  file_size : float;
  file_name : jsstring;
  file_path : jsstring;
  file_content : jsstring;
  file_sha : jsstring;
  file_url : jsstring;
  file_git_url : jsstring;
  file_html_url : jsstring;
  file_download_url : jsstring
}.

Record GitHubDirectoryContent := {
  dir_type : jsstring;
  dir_size : float;
  dir_name : jsstring;
  dir_path : jsstring;
  dir_sha : jsstring;
  dir_url : jsstring;
  dir_git_url : jsstring;
  dir_html_url : jsstring;
  dir_download_url : option jsstring
}.

(** [GitHubFileContentSchema.safeParse]: an object (not [null], not an
    array) with the eleven properties of the right types; unknown
    properties are stripped. *)
Definition GitHubFileContentSchema (v : value) : option GitHubFileContent :=
  match v with
  | VObject o =>
      t <-? z_string (lookup (lit "type") o);
      e <-? z_string (lookup (lit "encoding") o);
      sz <-? z_number (lookup (lit "size") o);
      n <-? z_string (lookup (lit "name") o);
      p <-? z_string (lookup (lit "path") o);
      c <-? z_string (lookup (lit "content") o);
      sh <-? z_string (lookup (lit "sha") o);
      u <-? z_string (lookup (lit "url") o);
      g <-? z_string (lookup (lit "git_url") o);
      h <-? z_string (lookup (lit "html_url") o);
      d <-? z_string (lookup (lit "download_url") o);
      Some {| file_type := t; file_encoding := e; file_size := sz;
              file_name := n; file_path := p; file_content := c;
              file_sha := sh; file_url := u; file_git_url := g;
              file_html_url := h; file_download_url := d |}
  | _ => None
  end.

Definition GitHubDirectoryContentSchema (v : value) : option GitHubDirectoryContent :=
  match v with
  | VObject o =>
      t <-? z_string (lookup (lit "type") o);
      sz <-? z_number (lookup (lit "size") o);
      n <-? z_string (lookup (lit "name") o);
      p <-? z_string (lookup (lit "path") o);
      sh <-? z_string (lookup (lit "sha") o);
      u <-? z_string (lookup (lit "url") o);
      g <-? z_string (lookup (lit "git_url") o);
      h <-? z_string (lookup (lit "html_url") o);
      d <-? z_string_nullable (lookup (lit "download_url") o);
      Some {| dir_type := t; dir_size := sz; dir_name := n; dir_path := p;
              dir_sha := sh; dir_url := u; dir_git_url := g;
              dir_html_url := h; dir_download_url := d |}
  | _ => None
  end.

(** [z.array(schema)]: every element must parse. *)
Fixpoint z_array {A} (schema : value -> option A) (items : list value)
  : option (list A) :=
  match items with
  | [] => Some []
  | x :: rest =>
      y <-? schema x;
      ys <-? z_array schema rest;
      Some (y :: ys)
  end.

(** [GitHubContentSchema.parse]: the first member of the union that
    accepts the value, a [ZodError] when none does. *)
Definition GitHubContentSchema (v : value)
  : exn + (GitHubFileContent + list GitHubDirectoryContent) :=
  match GitHubFileContentSchema v with
  | Some f => inr (inl f)
  | None =>
      match v with
      | VArray items =>
          match z_array GitHubDirectoryContentSchema items with
          | Some ds => inr (inr ds)
          | None => inl ZodError
          end
      | _ => inl ZodError
      end
  end.

(** ** The runtime's [URL] class and the protocol's data *)

(** A parsed URL as far as the program reads it. *)
Record URL := {
  href : jsstring;
  pathname : jsstring
}.

(** [new URL(input, base)]: [None] when the constructor throws. *)
Definition URLConstructor := value -> option URL -> option URL.

Record Resource := {
  res_uri : jsstring;
  res_mimeType : jsstring;
  res_name : value
}.

Record TextResourceContents := {
  content_uri : jsstring;
  content_mimeType : jsstring;
  content_text : jsstring
}.

Record Tool := { tool_name : jsstring }.

(** The SDK's [Server] with the three handlers registered on it. *)
Record Server := {
  server_name : jsstring;
  server_version : jsstring;
  server_capabilities : list jsstring;
  onListResources : M (list Resource);
  onReadResource : jsstring -> M (list TextResourceContents);
  onListTools : M (list Tool)
}.

Record GithubRepoServerParams := {
  githubPersonalAccessToken : jsstring;
  owner : jsstring;
  repo : jsstring;
  branch : option jsstring
}.

(** What [runServer] leaves behind: the process has exited with a code, or
    the server is connected to the stdio transport. *)
Inductive Outcome :=
| Exited (code : Z)
| Connected (server : Server).

(** A line on the error stream: a message, or a message with an error. *)
Inductive Diagnostic :=
| Diag (message : jsstring)
| DiagError (message : jsstring) (e : exn).

(** ** Reference instances of the runtime

    A network that always gives the same answer, and the [URL] class on
    plain [https://host/path] inputs, where the parser has nothing to
    normalise: the path name runs from the first [/] after the host to the
    first [?] or [#], and a relative path is appended to a base that ends
    in [/]. *)
Definition constant_network (r : option Response) : Network := fun _ _ => r.

Fixpoint until_query (s : jsstring) : jsstring :=
  match s with
  | [] => []
  | c :: s' => if (c =? 63) || (c =? 35) then [] else c :: until_query s'
  end.

Fixpoint from_slash (s : jsstring) : jsstring :=
  match s with
  | [] => []
  | c :: s' => if c =? 47 then s else from_slash s'
  end.

Definition plain_URL : URLConstructor :=
  fun input base =>
    match input with
    | VString s =>
        let full :=
          if is_prefix (lit "https://") s then Some s
          else match base with
               | Some b => Some (href b ++ s)
               | None => None
               end in
        match full with
        | Some h =>
            Some {| href := h;
                    pathname := until_query (from_slash (skipn 8 h)) |}
        | None => None
        end
    | _ => None
    end.

(** ** The program *)

Section Runtime.

Variable network : Network.
Variable URL_new : URLConstructor.

(** [await fetch(url, { headers })]: one outbound request, logged. *)
Definition fetch (url : jsstring) (headers : list (jsstring * jsstring))
  : M Response :=
  fun log =>
    let req := {| req_url := url; req_headers := headers |} in
    match network log req with
    | Some r => (inr r, log ++ [req])
    | None => (inl TypeError, log ++ [req])
    end.

Definition new_URL (input : value) (base : option URL) : M URL :=
  match URL_new input base with
  | Some u => ret u
  | None => throw TypeError
  end.

(** [await response.json()]. *)
Definition response_json (r : Response) : M value :=
  match json r with
  | Some v => ret v
  | None => throw SyntaxError
  end.

Section Closure.

(** The constants [createGithubRepoServer] closes over. *)
Variables GITHUB_PERSONAL_ACCESS_TOKEN owner_ repo_ : jsstring.
Variable branch_ : option jsstring.
Variable resourceBaseUrl : URL.

Definition listFiles (path : option jsstring) : M (list value) :=
  let path := match path with Some p => p | None => lit "" end in
  let url :=
    lit "https://api.github.com/repos/" ++ owner_ ++ lit "/" ++ repo_
    ++ lit "/contents/" ++ path in
  let url :=
    if truthy_opt branch_ then url ++ lit "?ref=" ++ template branch_
    else url in
  response <- fetch url
    [ (lit "Authorization", lit "token " ++ GITHUB_PERSONAL_ACCESS_TOKEN);
      (lit "Accept", lit "application/vnd.github.v3+json");
      (lit "User-Agent", lit "mcp-server-github-repo") ] ;;
  if negb (ok response) then
    throw (Error (lit "GitHub API error: " ++ statusText response))
  else
    contents <- response_json response ;;
    ret (match contents with
         | VArray items => items
         | _ => [contents]
         end).

Definition getFileContent (path : option jsstring) : M jsstring :=
  let url :=
    lit "https://api.github.com/repos/" ++ owner_ ++ lit "/" ++ repo_
    ++ lit "/contents/" ++ template path in
  let url :=
    if truthy_opt branch_ then url ++ lit "?ref=" ++ template branch_
    else url in
  response <- fetch url
    [ (lit "Authorization", lit "token " ++ GITHUB_PERSONAL_ACCESS_TOKEN);
      (lit "Accept", lit "application/vnd.github.v3+json");
      (lit "User-Agent", lit "mcp-server-github-repo") ] ;;
  if negb (ok response) then
    throw (Error (lit "GitHub API error: " ++ statusText response))
  else
    body <- response_json response ;;
    data <- lift (GitHubContentSchema body) ;;
    match data with
    | inr _ => throw (Error (lit "Path points to a directory, not a file"))
    | inl file =>
        ret (Buffer.toString_utf8 (Buffer.from_base64 (file_content file)))
    end.

(** The callback of [files.map] in the list-resources handler. *)
Definition toResource (file : value) : M Resource :=
  path <- lift (get_prop file (lit "path")) ;;
  url <- new_URL path (Some resourceBaseUrl) ;;
  type <- lift (get_prop file (lit "type")) ;;
  name <- lift (get_prop file (lit "path")) ;;
  ret {| res_uri := href url;
         res_mimeType :=
           if strict_eq_string type (lit "file") then lit "text/plain"
           else lit "application/x-directory";
         res_name := name |}.

Definition ListResourcesRequestHandler : M (list Resource) :=
  files <- listFiles None ;;
  mapM toResource files.

Definition ReadResourceRequestHandler (uri : jsstring)
  : M (list TextResourceContents) :=
  resourceUrl <- new_URL (VString uri) None ;;
  let path := at_index (split (pathname resourceUrl) (lit "/contents/")) 1 in
  content <- getFileContent path ;;
  ret [ {| content_uri := uri;
           content_mimeType := lit "text/plain";
           content_text := content |} ].

Definition ListToolsRequestHandler : M (list Tool) := ret [].

End Closure.

Definition createGithubRepoServer (params : GithubRepoServerParams) : M Server :=
  if negb (truthy (githubPersonalAccessToken params)) then
    throw (Error (lit "githubPersonalAccessToken is required"))
  else if negb (truthy (owner params)) then
    throw (Error (lit "owner is required"))
  else if negb (truthy (repo params)) then
    throw (Error (lit "repo is required"))
  else
    let GITHUB_PERSONAL_ACCESS_TOKEN := githubPersonalAccessToken params in
    let owner := owner params in
    let repo := repo params in
    let branch := branch params in
    resourceBaseUrl <- new_URL
      (VString (lit "https://api.github.com/repos/" ++ owner ++ lit "/"
                ++ repo ++ lit "/contents/")) None ;;
    ret {| server_name := lit "@loglm/mcp-server-github-repo";
           server_version := lit "0.1.0";
           server_capabilities := [lit "resources"; lit "tools"];
           onListResources :=
             ListResourcesRequestHandler
               GITHUB_PERSONAL_ACCESS_TOKEN owner repo branch resourceBaseUrl;
           onReadResource :=
             ReadResourceRequestHandler
               GITHUB_PERSONAL_ACCESS_TOKEN owner repo branch;
           onListTools := ListToolsRequestHandler |}.

(** [runServer] with its top-level [.catch]: the lines written to the
    error stream and the outcome.  The SDK's [connect] on the stdio
    transport is taken to resolve. *)
Definition runServer (env : jsstring -> option jsstring)
  : M (list Diagnostic * Outcome) :=
  let GITHUB_PERSONAL_ACCESS_TOKEN := env (lit "GITHUB_PERSONAL_ACCESS_TOKEN") in
  let GITHUB_OWNER := env (lit "GITHUB_OWNER") in
  let GITHUB_REPO := env (lit "GITHUB_REPO") in
  let GITHUB_BRANCH := env (lit "GITHUB_BRANCH") in
  if negb (truthy_opt GITHUB_PERSONAL_ACCESS_TOKEN) then
    ret ([Diag (lit "GITHUB_PERSONAL_ACCESS_TOKEN environment variable is not set")],
         Exited 1)
  else if negb (truthy_opt GITHUB_OWNER) || negb (truthy_opt GITHUB_REPO) then
    ret ([Diag (lit "GITHUB_OWNER and GITHUB_REPO environment variables are required")],
         Exited 1)
  else
    fun log =>
      match createGithubRepoServer
              {| githubPersonalAccessToken := narrowed GITHUB_PERSONAL_ACCESS_TOKEN;
                 owner := narrowed GITHUB_OWNER;
                 repo := narrowed GITHUB_REPO;
                 branch := GITHUB_BRANCH |} log with
      | (inr server, log') =>
          (inr ([Diag (lit "GitHub Repo MCP Server running on stdio")],
                Connected server), log')
      | (inl error, log') =>
          (inr ([DiagError (lit "Server error:") error], Exited 1), log')
      end.

End Runtime.

(** ** The encoders of the specification

    The specification speaks of "the base64 encoding of the UTF-8 bytes of
    [s]".  These are the encoders of RFC 4648 (with padding) and RFC 3629,
    written from those words; the program itself only decodes. *)
Module Spec.

(** [String.prototype.isWellFormed]: every code unit is in range and
    every surrogate is part of a high-low pair. *)
Fixpoint isWellFormed (s : jsstring) : bool :=
  match s with
  | [] => true
  | c :: rest =>
      if ((0 <=? c) && (c <? 55296)) || ((57343 <? c) && (c <? 65536))
      then isWellFormed rest
      else if (55296 <=? c) && (c <=? 56319) then
        match rest with
        | lo :: rest' =>
            (56320 <=? lo) && (lo <=? 57343) && isWellFormed rest'
        | [] => false
        end
      else false
  end.

Definition is_surrogate (c : Z) : bool := (55296 <=? c) && (c <=? 57343).

(** The code points of a string; a lone surrogate encodes as U+FFFD. *)
Fixpoint code_points (s : jsstring) : list Z :=
  match s with
  | [] => []
  | c :: rest =>
      match rest with
      | lo :: rest' =>
          if (55296 <=? c) && (c <=? 56319) && (56320 <=? lo) && (lo <=? 57343)
          then (65536 + (c - 55296) * 1024 + (lo - 56320)) :: code_points rest'
          else (if is_surrogate c then 65533 else c) :: code_points rest
      | [] => [if is_surrogate c then 65533 else c]
      end
  end.

Definition utf8_encode (cp : Z) : list Z :=
  if cp <? 128 then [cp]
  else if cp <? 2048 then [192 + cp / 64; 128 + cp mod 64]
  else if cp <? 65536 then
    [224 + cp / 4096; 128 + (cp / 64) mod 64; 128 + cp mod 64]
  else
    [240 + cp / 262144; 128 + (cp / 4096) mod 64; 128 + (cp / 64) mod 64;
     128 + cp mod 64].

(** The UTF-8 bytes of a string. *)
Definition utf8_bytes (s : jsstring) : list Z :=
  flat_map utf8_encode (code_points s).

Definition base64_char (v : Z) : Z :=
  if v <? 26 then 65 + v
  else if v <? 52 then 71 + v
  else if v <? 62 then v - 4
  else if v =? 62 then 43
  else 47.

Fixpoint base64_encode (bs : list Z) : jsstring :=
  match bs with
  | a :: b :: c :: rest =>
      base64_char (a / 4) :: base64_char ((a mod 4) * 16 + b / 16)
      :: base64_char ((b mod 16) * 4 + c / 64) :: base64_char (c mod 64)
      :: base64_encode rest
  | [a; b] =>
      [base64_char (a / 4); base64_char ((a mod 4) * 16 + b / 16);
       base64_char ((b mod 16) * 4); 61]
  | [a] => [base64_char (a / 4); base64_char ((a mod 4) * 16); 61; 61]
  | [] => []
  end.

End Spec.

Definition is_byte (b : Z) : Prop := 0 <= b < 256.

(** A Unicode scalar value: a code point that is not a surrogate. *)
Definition is_scalar (cp : Z) : Prop :=
  0 <= cp < 55296 \/ 57343 < cp <= 1114111.

(** Run from [log], the computation sends exactly the request [req]. *)
Definition sends {A} (m : M A) (log : list Request) (req : Request) : Prop :=
  snd (m log) = log ++ [req].

(** The outcomes the specification names. *)
Definition is_forge_api_error (e : exn) : Prop :=
  exists statusText, e = Error (lit "GitHub API error: " ++ statusText).

Definition is_shape_validation_error (e : exn) : Prop := e = ZodError.

Definition is_invalid_input_error (e : exn) : Prop :=
  e = Error (lit "Path points to a directory, not a file").

(** The URL constructor accepts the entry's [path] against the base. *)
Definition resolvable (URL_new : URLConstructor) (base : URL) (file : value)
  : Prop :=
  exists path u,
    get_prop file (lit "path") = inr path /\
    URL_new path (Some base) = Some u.

(** A Resource Descriptor is the projection of an entry. *)
Definition describes (URL_new : URLConstructor) (base : URL)
  (file : value) (res : Resource) : Prop :=
  exists path type u,
    get_prop file (lit "path") = inr path /\
    get_prop file (lit "type") = inr type /\
    URL_new path (Some base) = Some u /\
    res_uri res = href u /\
    (type = VString (lit "file") -> res_mimeType res = lit "text/plain") /\
    (type <> VString (lit "file") ->
     res_mimeType res = lit "application/x-directory") /\
    res_name res = path.

(** The environment with one variable removed. *)
Definition unset (k : jsstring) (env : jsstring -> option jsstring)
  : jsstring -> option jsstring :=
  fun k' => if jsstring_eqb k' k then None else env k'.

(** ** A sample repository

    The forge's answers for the root of [acme/widgets]: a file
    [README.md] holding "hello world" and a directory [src]. *)
Module Sample.

Definition readme : value :=
  VObject
    [ (lit "type", VString (lit "file"));
      (lit "encoding", VString (lit "base64"));
      (lit "size", VNumber 11%float);
      (lit "name", VString (lit "README.md"));
      (lit "path", VString (lit "README.md"));
      (lit "content", VString (lit "aGVsbG8gd29ybGQ="));
      (lit "sha", VString (lit "95d09f2b10159347eece71399a7e2e907ea3df4f"));
      (lit "url", VString (lit "https://api.github.com/repos/acme/widgets/contents/README.md"));
      (lit "git_url", VString (lit "https://api.github.com/repos/acme/widgets/git/blobs/95d09f2b"));
      (lit "html_url", VString (lit "https://github.com/acme/widgets/blob/main/README.md"));
      (lit "download_url", VString (lit "https://raw.githubusercontent.com/acme/widgets/main/README.md")) ].

(** The same entry with a [type] and an [encoding] that say otherwise. *)
Definition mislabelled : value :=
  VObject
    [ (lit "type", VString (lit "symlink"));
      (lit "encoding", VString (lit "none"));
      (lit "size", VNumber 11%float);
      (lit "name", VString (lit "README.md"));
      (lit "path", VString (lit "README.md"));
      (lit "content", VString (lit "aGVsbG8gd29ybGQ="));
      (lit "sha", VString (lit "95d09f2b10159347eece71399a7e2e907ea3df4f"));
      (lit "url", VString (lit "https://api.github.com/repos/acme/widgets/contents/README.md"));
      (lit "git_url", VString (lit "https://api.github.com/repos/acme/widgets/git/blobs/95d09f2b"));
      (lit "html_url", VString (lit "https://github.com/acme/widgets/blob/main/README.md"));
      (lit "download_url", VString (lit "https://raw.githubusercontent.com/acme/widgets/main/README.md")) ].

Definition src : value :=
  VObject
    [ (lit "type", VString (lit "dir"));
      (lit "size", VNumber 0%float);
      (lit "name", VString (lit "src"));
      (lit "path", VString (lit "src"));
      (lit "sha", VString (lit "4b825dc642cb6eb9a060e54bf8d69288fbee4904"));
      (lit "url", VString (lit "https://api.github.com/repos/acme/widgets/contents/src"));
      (lit "git_url", VString (lit "https://api.github.com/repos/acme/widgets/git/trees/4b825dc6"));
      (lit "html_url", VString (lit "https://github.com/acme/widgets/tree/main/src"));
      (lit "download_url", VNull) ].

Definition success (body : value) : Response :=
  {| ok := true; statusText := lit "OK"; json := Some body |}.

Definition not_found : Response :=
  {| ok := false; statusText := lit "Not Found";
     json := Some (VObject [ (lit "message", VString (lit "Not Found")) ]) |}.

Definition answers (r : Response) : Network := constant_network (Some r).

(** The request the sample server sends for a URL. *)
Definition request (url : jsstring) : Request :=
  {| req_url := url;
     req_headers :=
       [ (lit "Authorization", lit "token ghp_example");
         (lit "Accept", lit "application/vnd.github.v3+json");
         (lit "User-Agent", lit "mcp-server-github-repo") ] |}.

Definition acme : GithubRepoServerParams :=
  {| githubPersonalAccessToken := lit "ghp_example";
     owner := lit "acme";
     repo := lit "widgets";
     branch := None |}.

Definition base : URL :=
  {| href := lit "https://api.github.com/repos/acme/widgets/contents/";
     pathname := lit "/repos/acme/widgets/contents/" |}.

Definition environment (branch : option jsstring) (k : jsstring)
  : option jsstring :=
  if jsstring_eqb k (lit "GITHUB_PERSONAL_ACCESS_TOKEN") then Some (lit "ghp_example")
  else if jsstring_eqb k (lit "GITHUB_OWNER") then Some (lit "acme")
  else if jsstring_eqb k (lit "GITHUB_REPO") then Some (lit "widgets")
  else if jsstring_eqb k (lit "GITHUB_BRANCH") then branch
  else None.

End Sample.

(** ** Repository entries, as the data model has them

    An entry of a listing is a JSON object: a list of properties with
    distinct keys.  Its property [k] is the value bound to [k], and
    [undefined] when no binding has that key.  These are written from the
    data model, apart from the handlers' own property access. *)
Definition has_property (props : list (jsstring * value)) (k : jsstring)
  (v : value) : Prop :=
  In (k, v) props \/ (v = VUndefined /\ ~ In k (map fst props)).

(** An entry the list-resources handler can describe: a JSON object whose
    [path] the URL constructor accepts against the base. *)
Definition listed_entry (URL_new : URLConstructor) (base : URL) (file : value)
  : Prop :=
  exists props path u,
    file = VObject props /\
    NoDup (map fst props) /\
    has_property props (lit "path") path /\
    URL_new path (Some base) = Some u.

(** The Resource Descriptor of an entry. *)
Definition descriptor_of (URL_new : URLConstructor) (base : URL)
  (file : value) (res : Resource) : Prop :=
  exists props path type u,
    file = VObject props /\
    has_property props (lit "path") path /\
    has_property props (lit "type") type /\
    URL_new path (Some base) = Some u /\
    res_uri res = href u /\
    (type = VString (lit "file") -> res_mimeType res = lit "text/plain") /\
    (type <> VString (lit "file") ->
     res_mimeType res = lit "application/x-directory") /\
    res_name res = path.

(** ** Vocabulary of the further properties *)

(** The properties [GitHubFileContentSchema] requires to be strings. *)
Definition file_string_keys : list string :=
  [ "type"; "encoding"; "name"; "path"; "content"; "sha"; "url"; "git_url";
    "html_url"; "download_url" ]%string.

(** A code unit the base64 decoder passes over: its low byte is neither a
    character of the two alphabets nor [=]. *)
Definition skipped (c : Z) : bool :=
  negb (c mod 256 =? 61)
  && match Buffer.unbase64 (c mod 256) with Some _ => false | None => true end.

(** [sep] occurs in [s]. *)
Definition occurs (sep s : jsstring) : Prop := exists a b, s = a ++ sep ++ b.


(** An environment variable that is unset or set to the empty string. *)
Definition unset_or_empty (x : option jsstring) : Prop :=
  x = None \/ x = Some [].

(** More answers of the forge, and process environments. *)
Module Cases.

(** A submodule entry: an object without [content] and [encoding]. *)
Definition submodule : value :=
  VObject
    [ (lit "type", VString (lit "submodule"));
      (lit "size", VNumber 0%float);
      (lit "name", VString (lit "vendor"));
      (lit "path", VString (lit "vendor"));
      (lit "sha", VString (lit "4b825dc642cb6eb9a060e54bf8d69288fbee4904"));
      (lit "url", VString (lit "https://api.github.com/repos/acme/widgets/contents/vendor"));
      (lit "git_url", VString (lit "https://api.github.com/repos/acme/vendor/git/trees/4b825dc6"));
      (lit "html_url", VString (lit "https://github.com/acme/vendor/tree/4b825dc6"));
      (lit "download_url", VNull) ].

(** A file entry whose content the forge has broken into lines. *)
Definition wrapped : value :=
  VObject
    [ (lit "type", VString (lit "file"));
      (lit "encoding", VString (lit "base64"));
      (lit "size", VNumber 11%float);
      (lit "name", VString (lit "README.md"));
      (lit "path", VString (lit "README.md"));
      (lit "content", VString (lit "aGVsbG8g" ++ [10] ++ lit "d29ybGQ=" ++ [10]));
      (lit "sha", VString (lit "95d09f2b10159347eece71399a7e2e907ea3df4f"));
      (lit "url", VString (lit "https://api.github.com/repos/acme/widgets/contents/README.md"));
      (lit "git_url", VString (lit "https://api.github.com/repos/acme/widgets/git/blobs/95d09f2b"));
      (lit "html_url", VString (lit "https://github.com/acme/widgets/blob/main/README.md"));
      (lit "download_url", VString (lit "https://raw.githubusercontent.com/acme/widgets/main/README.md")) ].

(** An environment given by the values of the four variables. *)
Definition environment4 (token owner_ repo_ branch : option jsstring)
  (k : jsstring) : option jsstring :=
  if jsstring_eqb k (lit "GITHUB_PERSONAL_ACCESS_TOKEN") then token
  else if jsstring_eqb k (lit "GITHUB_OWNER") then owner_
  else if jsstring_eqb k (lit "GITHUB_REPO") then repo_
  else if jsstring_eqb k (lit "GITHUB_BRANCH") then branch
  else None.

(** A URL constructor that rejects every input. *)
Definition rejecting_URL : URLConstructor := fun _ _ => None.

End Cases.

(** * Properties *)

(** ** Strings *)

Lemma jsstring_eqb_eq (a b : jsstring) : jsstring_eqb a b = true <-> a = b.
Proof.
  revert b; induction a as [|x a IH]; intros [|y b]; simpl; split;
    try congruence; try reflexivity.
  - intros H. apply andb_true_iff in H as [Hx Hab].
    apply Z.eqb_eq in Hx. apply IH in Hab. congruence.
  - intros H. injection H as -> ->.
    rewrite Z.eqb_refl. simpl. now apply IH.
Qed.

Lemma strict_eq_string_true (v : value) (s : jsstring) :
  strict_eq_string v s = true <-> v = VString s.
Proof.
  destruct v; simpl; split; try congruence.
  - intros H. apply jsstring_eqb_eq in H. congruence.
  - intros H. injection H as ->. now apply jsstring_eqb_eq.
Qed.

Lemma truthy_true (s : jsstring) : s <> [] -> truthy s = true.
Proof. destruct s; simpl; congruence. Qed.

(** ** [split]

    Where the separator occurs exactly once, [split] returns what precedes
    it and what follows it. *)

Lemma is_prefix_true p s : is_prefix p s = true -> exists b, s = p ++ b.
Proof.
  revert s; induction p as [|x p IH]; intros s H.
  - now exists s.
  - destruct s as [|y s]; [discriminate|].
    simpl in H. apply andb_true_iff in H as [Hx Hp].
    apply Z.eqb_eq in Hx. destruct (IH s Hp) as [b ->].
    exists b. now subst.
Qed.

Lemma split_from_skip sep p cur s :
  split_from sep (List.length p) cur (p ++ s) = split_from sep O cur s.
Proof. induction p as [|c p IH]; [reflexivity|exact IH]. Qed.

Lemma split_from_no_occurrence sep cur s :
  sep <> [] ->
  (forall a b, s <> a ++ sep ++ b) ->
  split_from sep O cur s = [rev cur ++ s].
Proof.
  intros Hsep. revert cur; induction s as [|c s IH]; intros cur Hno.
  - simpl. now rewrite app_nil_r.
  - cbn [split_from].
    destruct (is_prefix sep (c :: s)) eqn:E.
    + apply is_prefix_true in E as [b Hb]. now destruct (Hno [] b).
    + rewrite IH.
      * simpl. now rewrite <- app_assoc.
      * intros a b ->. now apply (Hno (c :: a) b).
Qed.

Lemma split_from_first sep cur pre post :
  sep <> [] ->
  (forall a b, pre ++ sep ++ post = a ++ sep ++ b ->
               (List.length pre <= List.length a)%nat) ->
  split_from sep O cur (pre ++ sep ++ post) =
  (rev cur ++ pre) :: split_from sep O [] post.
Proof.
  intros Hsep. revert cur; induction pre as [|c pre IH]; intros cur Hfirst.
  - destruct sep as [|x sep]; [congruence|].
    cbn [app split_from].
    assert (E : is_prefix (x :: sep) (x :: sep ++ post) = true).
    { clear. change (x :: sep ++ post) with ((x :: sep) ++ post).
      induction (x :: sep) as [|y l IHl]; [reflexivity|].
      simpl. now rewrite Z.eqb_refl. }
    rewrite E. rewrite app_nil_r. cbn [List.length Nat.pred].
    now rewrite split_from_skip.
  - cbn [app split_from].
    destruct (is_prefix sep (c :: pre ++ sep ++ post)) eqn:E.
    + apply is_prefix_true in E as [b Hb].
      specialize (Hfirst [] b Hb). simpl in Hfirst. lia.
    + rewrite IH.
      * simpl. now rewrite <- app_assoc.
      * intros a b Hab.
        assert (H : (List.length (c :: pre) <= List.length (c :: a))%nat).
        { apply (Hfirst (c :: a) b). simpl. now rewrite Hab. }
        simpl in H. lia.
Qed.

Lemma split_unique_occurrence sep pre post :
  sep <> [] ->
  (forall a b, pre ++ sep ++ post = a ++ sep ++ b -> a = pre) ->
  split (pre ++ sep ++ post) sep = [pre; post].
Proof.
  intros Hsep Huniq. unfold split.
  destruct sep as [|x sep'] eqn:Esep; [congruence|]. rewrite <- Esep in *.
  rewrite split_from_first; [|exact Hsep|].
  - rewrite split_from_no_occurrence; [reflexivity|exact Hsep|].
    intros a b ->.
    assert (H : pre ++ sep ++ a = pre).
    { apply (Huniq (pre ++ sep ++ a) b). now rewrite <- !app_assoc. }
    apply (f_equal (@List.length Z)) in H. rewrite !length_app in H.
    subst sep. simpl in H. lia.
  - intros a b Hab. now rewrite (Huniq a b Hab).
Qed.

(** ** The content-access layer *)

(** Name the request a computation starts with and split on the network's
    answer to it. *)
Ltac first_request network log :=
  cbv zeta;
  match goal with
  | |- context [network log ?q] =>
      exists q; destruct (network log q) as [r|]; [|reflexivity]
  end.

Lemma sends_unique {A} (m : M A) log req req' :
  sends m log req -> sends m log req' -> req = req'.
Proof.
  unfold sends. intros H H'. rewrite H in H'.
  apply app_inv_head in H'. congruence.
Qed.

Section ContentAccess.

Variable network : Network.
Variables token owner_ repo_ : jsstring.

Local Abbreviation listFiles' := (listFiles network token owner_ repo_).
Local Abbreviation getFileContent' := (getFileContent network token owner_ repo_).

(** Both operations start with exactly one [fetch]; what comes next
    depends on the answer only. *)
Lemma listFiles_run branch path log :
  exists req,
    listFiles' branch path log =
    match network log req with
    | None => (inl TypeError, log ++ [req])
    | Some r =>
        if negb (ok r)
        then (inl (Error (lit "GitHub API error: " ++ statusText r)), log ++ [req])
        else match json r with
             | None => (inl SyntaxError, log ++ [req])
             | Some (VArray items) => (inr items, log ++ [req])
             | Some body => (inr [body], log ++ [req])
             end
    end.
Proof.
  unfold listFiles, bind, fetch.
  first_request network log.
  destruct (ok r); simpl; [|reflexivity].
  unfold response_json. destruct (json r) as [body|]; [|reflexivity].
  destruct body; reflexivity.
Qed.

Lemma getFileContent_run branch path log :
  exists req,
    getFileContent' branch path log =
    match network log req with
    | None => (inl TypeError, log ++ [req])
    | Some r =>
        if negb (ok r)
        then (inl (Error (lit "GitHub API error: " ++ statusText r)), log ++ [req])
        else match json r with
             | None => (inl SyntaxError, log ++ [req])
             | Some body =>
                 match GitHubContentSchema body with
                 | inl e => (inl e, log ++ [req])
                 | inr (inr _) =>
                     (inl (Error (lit "Path points to a directory, not a file")),
                      log ++ [req])
                 | inr (inl file) =>
                     (inr (Buffer.toString_utf8
                             (Buffer.from_base64 (file_content file))),
                      log ++ [req])
                 end
             end
    end.
Proof.
  unfold getFileContent, bind, fetch.
  first_request network log.
  destruct (ok r); simpl; [|reflexivity].
  unfold response_json. destruct (json r) as [body|]; [|reflexivity].
  unfold ret at 1. unfold lift.
  destruct (GitHubContentSchema body) as [e|[file|dirs]]; reflexivity.
Qed.

(** Each operation sends exactly one request, whatever the answer. *)
Lemma listFiles_sends branch path log :
  exists req, sends (listFiles' branch path) log req.
Proof.
  destruct (listFiles_run branch path log) as [req H].
  exists req. unfold sends. rewrite H.
  destruct (network log req) as [r|]; [|reflexivity].
  destruct (ok r); simpl; [|reflexivity].
  destruct (json r) as [[]|]; reflexivity.
Qed.

Lemma getFileContent_sends branch path log :
  exists req, sends (getFileContent' branch path) log req.
Proof.
  destruct (getFileContent_run branch path log) as [req H].
  exists req. unfold sends. rewrite H.
  destruct (network log req) as [r|]; [|reflexivity].
  destruct (ok r); simpl; [|reflexivity].
  destruct (json r) as [body|]; [|reflexivity].
  destruct (GitHubContentSchema body) as [e|[file|dirs]]; reflexivity.
Qed.

(** The result as a function of the answer to the request that is sent. *)
Lemma listFiles_answer branch path log req :
  sends (listFiles' branch path) log req ->
  listFiles' branch path log =
  match network log req with
  | None => (inl TypeError, log ++ [req])
  | Some r =>
      if negb (ok r)
      then (inl (Error (lit "GitHub API error: " ++ statusText r)), log ++ [req])
      else match json r with
           | None => (inl SyntaxError, log ++ [req])
           | Some (VArray items) => (inr items, log ++ [req])
           | Some body => (inr [body], log ++ [req])
           end
  end.
Proof.
  intros Hsends.
  destruct (listFiles_run branch path log) as [req0 H].
  assert (Hsends0 : sends (listFiles' branch path) log req0).
  { unfold sends. rewrite H.
    destruct (network log req0) as [r|]; [|reflexivity].
    destruct (ok r); simpl; [|reflexivity].
    destruct (json r) as [[]|]; reflexivity. }
  now rewrite (sends_unique _ _ _ _ Hsends Hsends0).
Qed.

Lemma getFileContent_answer branch path log req :
  sends (getFileContent' branch path) log req ->
  getFileContent' branch path log =
  match network log req with
  | None => (inl TypeError, log ++ [req])
  | Some r =>
      if negb (ok r)
      then (inl (Error (lit "GitHub API error: " ++ statusText r)), log ++ [req])
      else match json r with
           | None => (inl SyntaxError, log ++ [req])
           | Some body =>
               match GitHubContentSchema body with
               | inl e => (inl e, log ++ [req])
               | inr (inr _) =>
                   (inl (Error (lit "Path points to a directory, not a file")),
                    log ++ [req])
               | inr (inl file) =>
                   (inr (Buffer.toString_utf8
                           (Buffer.from_base64 (file_content file))),
                    log ++ [req])
               end
           end
  end.
Proof.
  intros Hsends.
  destruct (getFileContent_run branch path log) as [req0 H].
  assert (Hsends0 : sends (getFileContent' branch path) log req0).
  { unfold sends. rewrite H.
    destruct (network log req0) as [r|]; [|reflexivity].
    destruct (ok r); simpl; [|reflexivity].
    destruct (json r) as [body|]; [|reflexivity].
    destruct (GitHubContentSchema body) as [e|[file|dirs]]; reflexivity. }
  now rewrite (sends_unique _ _ _ _ Hsends Hsends0).
Qed.

(** C3. On a successful response [listFiles] always returns a sequence:
    a JSON array body is returned as its entries, unchanged and in
    order; a single JSON object (any body that is not an array) is
    returned as the one-element sequence holding exactly that value. *)
Theorem listFiles_normalises_to_sequence branch path log req r body :
  sends (listFiles' branch path) log req ->
  network log req = Some r ->
  ok r = true ->
  json r = Some body ->
  (forall items, body = VArray items ->
     fst (listFiles' branch path log) = inr items) /\
  (forall props, body = VObject props ->
     fst (listFiles' branch path log) = inr [VObject props]) /\
  (isArray body = false -> fst (listFiles' branch path log) = inr [body]).
Proof.
  intros Hsends Hnet Hok Hjson.
  rewrite (listFiles_answer branch path log req Hsends).
  rewrite Hnet, Hok, Hjson. simpl.
  repeat split.
  - now intros items ->.
  - now intros props ->.
  - destruct body; simpl; congruence.
Qed.

(** C5. When the response body validates as an array of directory
    entries, [getFileContent] throws the error "Path points to a
    directory, not a file"; that error is neither a forge-API error
    nor a shape-validation error. *)
Theorem getFileContent_rejects_directory branch path log req r items dirs :
  sends (getFileContent' branch path) log req ->
  network log req = Some r ->
  ok r = true ->
  json r = Some (VArray items) ->
  z_array GitHubDirectoryContentSchema items = Some dirs ->
  exists e,
    fst (getFileContent' branch path log) = inl e /\
    e = Error (lit "Path points to a directory, not a file") /\
    is_invalid_input_error e /\
    ~ is_forge_api_error e /\
    ~ is_shape_validation_error e.
Proof.
  intros Hsends Hnet Hok Hjson Hdirs.
  rewrite (getFileContent_answer branch path log req Hsends).
  rewrite Hnet, Hok, Hjson. simpl.
  unfold GitHubContentSchema. simpl. rewrite Hdirs. simpl.
  eexists; repeat split.
  - intros [t Ht]. vm_compute in Ht. discriminate Ht.
  - intros Hz. discriminate Hz.
Qed.

(** C8. Each operation sends exactly one request; when the answer to it
    has a non-success status the operation throws a forge-API error whose
    message is "GitHub API error: " followed by the status text, and the
    log of outbound requests has grown by that one request only: nothing
    is sent again. *)
Theorem non_success_status_fails_once branch path log :
  (exists req,
     sends (listFiles' branch path) log req /\
     forall r, network log req = Some r -> ok r = false ->
       listFiles' branch path log =
       (inl (Error (lit "GitHub API error: " ++ statusText r)), log ++ [req]) /\
       is_forge_api_error (Error (lit "GitHub API error: " ++ statusText r))) /\
  (exists req,
     sends (getFileContent' branch path) log req /\
     forall r, network log req = Some r -> ok r = false ->
       getFileContent' branch path log =
       (inl (Error (lit "GitHub API error: " ++ statusText r)), log ++ [req]) /\
       is_forge_api_error (Error (lit "GitHub API error: " ++ statusText r))).
Proof.
  split.
  - destruct (listFiles_sends branch path log) as [req Hsends].
    exists req. split; [exact Hsends|]. intros r Hnet Hok. split.
    + rewrite (listFiles_answer branch path log req Hsends).
      now rewrite Hnet, Hok.
    + now exists (statusText r).
  - destruct (getFileContent_sends branch path log) as [req Hsends].
    exists req. split; [exact Hsends|]. intros r Hnet Hok. split.
    + rewrite (getFileContent_answer branch path log req Hsends).
      now rewrite Hnet, Hok.
    + now exists (statusText r).
Qed.

Lemma getFileContent_of_file branch path log req r body file :
  sends (getFileContent' branch path) log req ->
  network log req = Some r ->
  ok r = true ->
  json r = Some body ->
  GitHubFileContentSchema body = Some file ->
  fst (getFileContent' branch path log) =
  inr (Buffer.toString_utf8 (Buffer.from_base64 (file_content file))).
Proof.
  intros Hsends Hnet Hok Hjson Hfile.
  rewrite (getFileContent_answer branch path log req Hsends).
  rewrite Hnet, Hok, Hjson. simpl.
  unfold GitHubContentSchema. now rewrite Hfile.
Qed.

(** Both operations log exactly the request they build. *)
Lemma listFiles_log branch path log :
  exists headers,
    sends (listFiles' branch path) log
      {| req_url :=
           (lit "https://api.github.com/repos/" ++ owner_ ++ lit "/"
            ++ repo_ ++ lit "/contents/"
            ++ match path with Some p => p | None => lit "" end)
           ++ (if truthy_opt branch
               then lit "?ref=" ++ template branch else []);
         req_headers := headers |}.
Proof.
  eexists. unfold sends, listFiles, bind, fetch. cbv zeta.
  destruct (truthy_opt branch).
  - cbv iota.
    destruct (network log _) as [r|]; [|reflexivity].
    destruct (ok r); simpl; [|reflexivity].
    unfold response_json. destruct (json r) as [body|]; reflexivity.
  - cbv iota. rewrite app_nil_r.
    destruct (network log _) as [r|]; [|reflexivity].
    destruct (ok r); simpl; [|reflexivity].
    unfold response_json. destruct (json r) as [body|]; reflexivity.
Qed.

Lemma getFileContent_log branch path log :
  exists headers,
    sends (getFileContent' branch path) log
      {| req_url :=
           (lit "https://api.github.com/repos/" ++ owner_ ++ lit "/"
            ++ repo_ ++ lit "/contents/" ++ template path)
           ++ (if truthy_opt branch
               then lit "?ref=" ++ template branch else []);
         req_headers := headers |}.
Proof.
  eexists. unfold sends, getFileContent, bind, fetch.
  cbv zeta.
  destruct (truthy_opt branch).
  - cbv iota.
    destruct (network log _) as [r|]; [|reflexivity].
    destruct (ok r); simpl; [|reflexivity].
    unfold response_json. destruct (json r) as [body|]; [|reflexivity].
    unfold ret at 1. unfold lift.
    destruct (GitHubContentSchema body) as [e|[file|dirs]]; reflexivity.
  - cbv iota. rewrite app_nil_r.
    destruct (network log _) as [r|]; [|reflexivity].
    destruct (ok r); simpl; [|reflexivity].
    unfold response_json. destruct (json r) as [body|]; [|reflexivity].
    unfold ret at 1. unfold lift.
    destruct (GitHubContentSchema body) as [e|[file|dirs]]; reflexivity.
Qed.

(** C7. For every path, the one request of [listFiles] and the one of
    [getFileContent] go to
    [https://api.github.com/repos/{owner}/{repo}/contents/{path}],
    followed by [?ref={branch}] when a branch is configured and by
    nothing when none is. *)
Theorem outbound_url_ref_iff_branch branch path log :
  let url :=
    lit "https://api.github.com/repos/" ++ owner_ ++ lit "/" ++ repo_
    ++ lit "/contents/" ++ path in
  (forall b, branch = Some b -> b <> [] ->
     (exists headers,
        sends (listFiles' branch (Some path)) log
          {| req_url := url ++ lit "?ref=" ++ b; req_headers := headers |}) /\
     (exists headers,
        sends (getFileContent' branch (Some path)) log
          {| req_url := url ++ lit "?ref=" ++ b; req_headers := headers |})) /\
  (branch = None ->
     (exists headers,
        sends (listFiles' branch (Some path)) log
          {| req_url := url; req_headers := headers |}) /\
     (exists headers,
        sends (getFileContent' branch (Some path)) log
          {| req_url := url; req_headers := headers |})).
Proof.
  intros url; subst url. split.
  - intros b -> Hb. split.
    + destruct (listFiles_log (Some b) (Some path) log) as [h Hlog].
      exists h. simpl truthy_opt in Hlog.
      rewrite (truthy_true b Hb) in Hlog. exact Hlog.
    + destruct (getFileContent_log (Some b) (Some path) log) as [h Hlog].
      exists h. simpl truthy_opt in Hlog.
      rewrite (truthy_true b Hb) in Hlog. exact Hlog.
  - intros ->. split.
    + destruct (listFiles_log None (Some path) log) as [h Hlog].
      exists h. simpl in Hlog. rewrite app_nil_r in Hlog. exact Hlog.
    + destruct (getFileContent_log None (Some path) log) as [h Hlog].
      exists h. simpl in Hlog. rewrite app_nil_r in Hlog. exact Hlog.
Qed.

End ContentAccess.

(** ** The protocol bridge *)

Section Bridge.

Variable network : Network.
Variable URL_new : URLConstructor.

Local Abbreviation createGithubRepoServer' :=
  (createGithubRepoServer network URL_new).
Local Abbreviation runServer' := (runServer network URL_new).

(** C2. [createGithubRepoServer] checks the token, the owner and the
    repository name in that order and throws on the first empty one an
    error naming it; with all three present it returns a server.  In
    every case the log of outbound requests is left as it was.  (The
    content-base URL is an [https://api.github.com/...] URL, which the
    runtime's parser accepts.) *)
Theorem createGithubRepoServer_validates_in_order params log :
  (githubPersonalAccessToken params = [] ->
   createGithubRepoServer' params log =
   (inl (Error (lit "githubPersonalAccessToken is required")), log)) /\
  (githubPersonalAccessToken params <> [] -> owner params = [] ->
   createGithubRepoServer' params log =
   (inl (Error (lit "owner is required")), log)) /\
  (githubPersonalAccessToken params <> [] -> owner params <> [] ->
   repo params = [] ->
   createGithubRepoServer' params log =
   (inl (Error (lit "repo is required")), log)) /\
  (githubPersonalAccessToken params <> [] -> owner params <> [] ->
   repo params <> [] ->
   forall base,
     URL_new (VString (lit "https://api.github.com/repos/" ++ owner params
                       ++ lit "/" ++ repo params ++ lit "/contents/")) None
     = Some base ->
     exists server, createGithubRepoServer' params log = (inr server, log)).
Proof.
  unfold createGithubRepoServer.
  repeat split.
  - intros ->. reflexivity.
  - intros Ht ->. now rewrite (truthy_true _ Ht).
  - intros Ht Ho ->. now rewrite (truthy_true _ Ht), (truthy_true _ Ho).
  - intros Ht Ho Hr base Hbase.
    rewrite (truthy_true _ Ht), (truthy_true _ Ho), (truthy_true _ Hr).
    cbv zeta. unfold bind, new_URL. rewrite Hbase.
    eexists. reflexivity.
Qed.

(** A server that was returned carries the handlers closed over the
    parameters and the parsed content-base URL. *)
Lemma createGithubRepoServer_handlers params log server log' :
  createGithubRepoServer' params log = (inr server, log') ->
  exists base,
    URL_new (VString (lit "https://api.github.com/repos/" ++ owner params
                      ++ lit "/" ++ repo params ++ lit "/contents/")) None
    = Some base /\
    onListResources server =
    ListResourcesRequestHandler network URL_new
      (githubPersonalAccessToken params) (owner params) (repo params)
      (branch params) base /\
    onReadResource server =
    ReadResourceRequestHandler network URL_new
      (githubPersonalAccessToken params) (owner params) (repo params)
      (branch params) /\
    log' = log.
Proof.
  unfold createGithubRepoServer.
  destruct (truthy (githubPersonalAccessToken params)); [|discriminate].
  destruct (truthy (owner params)); [|discriminate].
  destruct (truthy (repo params)); [|discriminate].
  cbv zeta. unfold bind, new_URL.
  destruct (URL_new _ None) as [base|]; [|discriminate].
  intros H. injection H as <- <-. exists base. repeat split.
Qed.

(** C9. An empty branch is no branch: with [branch] the empty string
    both operations, the server factory and (for an empty
    [GITHUB_BRANCH] variable) the entry point compute exactly what they
    compute with no branch at all, so no [ref] parameter is sent. *)
Theorem empty_branch_is_no_branch :
  (forall token owner_ repo_ path log,
     listFiles network token owner_ repo_ (Some []) path log =
     listFiles network token owner_ repo_ None path log) /\
  (forall token owner_ repo_ path log,
     getFileContent network token owner_ repo_ (Some []) path log =
     getFileContent network token owner_ repo_ None path log) /\
  (forall token owner_ repo_ log,
     createGithubRepoServer'
       {| githubPersonalAccessToken := token; owner := owner_;
          repo := repo_; branch := Some [] |} log =
     createGithubRepoServer'
       {| githubPersonalAccessToken := token; owner := owner_;
          repo := repo_; branch := None |} log) /\
  (forall env log,
     env (lit "GITHUB_BRANCH") = Some [] ->
     runServer' env log = runServer' (unset (lit "GITHUB_BRANCH") env) log) /\
  (forall token owner_ repo_ path log,
     let url :=
       lit "https://api.github.com/repos/" ++ owner_ ++ lit "/" ++ repo_
       ++ lit "/contents/" ++ path in
     (exists headers,
        sends (listFiles network token owner_ repo_ (Some []) (Some path)) log
          {| req_url := url; req_headers := headers |}) /\
     (exists headers,
        sends (getFileContent network token owner_ repo_ (Some []) (Some path))
          log {| req_url := url; req_headers := headers |})).
Proof.
  split; [|split; [|split; [|split]]];
    [reflexivity|reflexivity| | |].
  3: {
    intros token owner_ repo_ path log url. subst url. split.
    - destruct (listFiles_log network token owner_ repo_
                  (Some []) (Some path) log) as [h Hlog].
      exists h. simpl in Hlog. rewrite app_nil_r in Hlog. exact Hlog.
    - destruct (getFileContent_log network token owner_ repo_
                  (Some []) (Some path) log) as [h Hlog].
      exists h. simpl in Hlog. rewrite app_nil_r in Hlog. exact Hlog. }
  - intros token owner_ repo_ log.
    unfold createGithubRepoServer.
    cbn [githubPersonalAccessToken owner repo branch].
    destruct (truthy token); [|reflexivity].
    destruct (truthy owner_); [|reflexivity].
    destruct (truthy repo_); reflexivity.
  - intros env log Hbranch.
    unfold runServer. cbv zeta.
    change (unset (lit "GITHUB_BRANCH") env (lit "GITHUB_PERSONAL_ACCESS_TOKEN"))
      with (env (lit "GITHUB_PERSONAL_ACCESS_TOKEN")).
    change (unset (lit "GITHUB_BRANCH") env (lit "GITHUB_OWNER"))
      with (env (lit "GITHUB_OWNER")).
    change (unset (lit "GITHUB_BRANCH") env (lit "GITHUB_REPO"))
      with (env (lit "GITHUB_REPO")).
    change (unset (lit "GITHUB_BRANCH") env (lit "GITHUB_BRANCH"))
      with (@None jsstring).
    rewrite Hbranch.
    destruct (negb (truthy_opt (env (lit "GITHUB_PERSONAL_ACCESS_TOKEN"))));
      [reflexivity|].
    destruct (negb (truthy_opt (env (lit "GITHUB_OWNER")))
              || negb (truthy_opt (env (lit "GITHUB_REPO")))); [reflexivity|].
    unfold createGithubRepoServer.
    cbn [githubPersonalAccessToken owner repo branch].
    destruct (truthy (narrowed (env (lit "GITHUB_PERSONAL_ACCESS_TOKEN"))));
      [|reflexivity].
    destruct (truthy (narrowed (env (lit "GITHUB_OWNER")))); [|reflexivity].
    destruct (truthy (narrowed (env (lit "GITHUB_REPO")))); reflexivity.
Qed.

Lemma get_prop_total file k v k' :
  get_prop file k = inr v -> exists v', get_prop file k' = inr v'.
Proof.
  destruct file; simpl; try discriminate; eauto.
  destruct (lookup k' props); eauto.
Qed.

Lemma toResource_run base file path type u log :
  get_prop file (lit "path") = inr path ->
  get_prop file (lit "type") = inr type ->
  URL_new path (Some base) = Some u ->
  toResource URL_new base file log =
  (inr {| res_uri := href u;
          res_mimeType :=
            if strict_eq_string type (lit "file") then lit "text/plain"
            else lit "application/x-directory";
          res_name := path |}, log).
Proof.
  intros Hpath Htype Hu.
  unfold toResource, bind, new_URL. rewrite Hpath. simpl.
  rewrite Hu. simpl. rewrite Htype. reflexivity.
Qed.

Lemma mapM_toResource base files log :
  Forall (resolvable URL_new base) files ->
  exists resources,
    mapM (toResource URL_new base) files log = (inr resources, log) /\
    Forall2 (describes URL_new base) files resources.
Proof.
  induction 1 as [|file files (path & u & Hpath & Hu) _ (resources & Hrun & Hall)].
  - exists []. split; [reflexivity|constructor].
  - destruct (get_prop_total _ _ _ (lit "type") Hpath) as [type Htype].
    eexists (_ :: resources). split.
    + simpl. unfold bind.
      rewrite (toResource_run base file path type u log Hpath Htype Hu).
      rewrite Hrun. reflexivity.
    + constructor; [|exact Hall].
      exists path, type, u. simpl. repeat split; auto.
      * intros ->. reflexivity.
      * intros Hne. destruct (strict_eq_string type (lit "file")) eqn:E;
          [|reflexivity].
        apply strict_eq_string_true in E. contradiction.
Qed.

(** The handler's callback throws on the first entry that is [null] or
    whose [path] the URL constructor rejects. *)
Lemma mapM_toResource_unresolvable base files log :
  ~ Forall (resolvable URL_new base) files ->
  mapM (toResource URL_new base) files log = (inl TypeError, log).
Proof.
  induction files as [|file files IH]; intros Hnot.
  - now destruct Hnot.
  - cbn [mapM]. unfold bind at 1.
    destruct (get_prop file (lit "path")) as [e|path] eqn:Hpath.
    + assert (He : e = TypeError).
      { destruct file; simpl in Hpath; try congruence.
        destruct (lookup _ _) in Hpath; discriminate. }
      subst e. unfold toResource, bind. rewrite Hpath. reflexivity.
    + destruct (URL_new path (Some base)) as [u|] eqn:Hu.
      * destruct (get_prop_total _ _ _ (lit "type") Hpath) as [type Htype].
        rewrite (toResource_run base file path type u log Hpath Htype Hu).
        unfold bind. rewrite IH; [reflexivity|].
        intros Hall. apply Hnot. constructor; [|exact Hall].
        now exists path, u.
      * unfold toResource, bind, new_URL. rewrite Hpath. simpl.
        now rewrite Hu.
Qed.

Lemma lookup_In props k v :
  NoDup (map fst props) -> In (k, v) props -> lookup k props = Some v.
Proof.
  induction props as [|[k' v'] rest IH]; intros Hnd Hin; [destruct Hin|].
  cbn [map fst] in Hnd. inversion_clear Hnd as [|? ? Hfresh Hrest].
  cbn [lookup]. destruct Hin as [Heq|Hin].
  - injection Heq as -> ->.
    now rewrite (proj2 (jsstring_eqb_eq k k) eq_refl).
  - destruct (jsstring_eqb k k') eqn:E.
    + apply jsstring_eqb_eq in E. subst k'.
      destruct Hfresh. now apply (in_map fst) in Hin.
    + now apply IH.
Qed.

Lemma lookup_absent props k : ~ In k (map fst props) -> lookup k props = None.
Proof.
  induction props as [|[k' v'] rest IH]; intros Hout; [reflexivity|].
  cbn [lookup]. destruct (jsstring_eqb k k') eqn:E.
  - apply jsstring_eqb_eq in E. subst k'. destruct Hout. now left.
  - apply IH. intros Hin. apply Hout. now right.
Qed.

Lemma lookup_found props k v : lookup k props = Some v -> In (k, v) props.
Proof.
  induction props as [|[k' v'] rest IH]; [discriminate|].
  cbn [lookup]. destruct (jsstring_eqb k k') eqn:E.
  - apply jsstring_eqb_eq in E. subst k'. intros H. injection H as ->. now left.
  - intros H. right. now apply IH.
Qed.

Lemma lookup_missing props k : lookup k props = None -> ~ In k (map fst props).
Proof.
  induction props as [|[k' v'] rest IH]; [intros _ []|].
  cbn [lookup map fst]. destruct (jsstring_eqb k k') eqn:E; [discriminate|].
  intros H [Heq|Hin].
  - subst k'. now rewrite (proj2 (jsstring_eqb_eq k k) eq_refl) in E.
  - now apply (IH H).
Qed.

(** The handlers' property access reads the entry's property. *)
Lemma get_prop_has_property props k v :
  NoDup (map fst props) -> has_property props k v ->
  get_prop (VObject props) k = inr v.
Proof.
  intros Hnd [Hin|[-> Hout]]; cbn [get_prop].
  - now rewrite (lookup_In props k v Hnd Hin).
  - now rewrite (lookup_absent props k Hout).
Qed.

Lemma has_property_of_get_prop props k v :
  get_prop (VObject props) k = inr v -> has_property props k v.
Proof.
  cbn [get_prop]. destruct (lookup k props) as [v'|] eqn:E; intros H;
    injection H as <-.
  - left. now apply lookup_found.
  - right. split; [reflexivity|]. now apply lookup_missing.
Qed.

Lemma listed_entry_resolvable base file :
  listed_entry URL_new base file -> resolvable URL_new base file.
Proof.
  intros (props & path & u & -> & Hnd & Hpath & Hu).
  exists path, u. split; [|exact Hu].
  now apply get_prop_has_property.
Qed.

Lemma describes_descriptor_of base files resources :
  Forall (listed_entry URL_new base) files ->
  Forall2 (describes URL_new base) files resources ->
  Forall2 (descriptor_of URL_new base) files resources.
Proof.
  intros Hall H2. induction H2 as [|file res files resources Hd _ IH];
    [constructor|].
  inversion_clear Hall as [|? ? Hentry Hrest].
  constructor; [|now apply IH].
  destruct Hentry as (props & path0 & u0 & -> & Hnd & _ & _).
  destruct Hd as (path & type & u & Hpath & Htype & Hu & Huri & Hf & Hd & Hname).
  exists props, path, type, u.
  split; [reflexivity|].
  split; [now apply has_property_of_get_prop|].
  split; [now apply has_property_of_get_prop|].
  repeat split; assumption.
Qed.

(** C4 (as amended).  For every successful root listing in which every
    entry is a JSON object whose [path] the URL constructor accepts, the
    list-resources handler of a created server returns one Resource
    Descriptor per entry, in the same order: [uri] is the entry's [path]
    resolved against the content-base URL
    [https://api.github.com/repos/{owner}/{repo}/contents/], [mimeType]
    is "text/plain" when the entry's [type] is "file" and
    "application/x-directory" for every other value, and [name] is the
    entry's [path]. *)
Theorem list_resources_describes_every_entry
    params log0 server log1 base log files :
  createGithubRepoServer' params log0 = (inr server, log1) ->
  URL_new (VString (lit "https://api.github.com/repos/" ++ owner params
                    ++ lit "/" ++ repo params ++ lit "/contents/")) None
  = Some base ->
  fst (listFiles network (githubPersonalAccessToken params) (owner params)
         (repo params) (branch params) None log) = inr files ->
  Forall (listed_entry URL_new base) files ->
  exists resources,
    fst (onListResources server log) = inr resources /\
    Forall2 (descriptor_of URL_new base) files resources.
Proof.
  intros Hserver Hbase Hfiles Hentries.
  destruct (createGithubRepoServer_handlers _ _ _ _ Hserver)
    as (base' & Hbase' & -> & _ & _).
  rewrite Hbase in Hbase'. injection Hbase' as <-.
  unfold ListResourcesRequestHandler, bind.
  destruct (listFiles _ _ _ _ _ None log) as [res log'].
  simpl in Hfiles. subst res.
  assert (Hres : Forall (resolvable URL_new base) files).
  { eapply Forall_impl; [|exact Hentries].
    intros file. apply listed_entry_resolvable. }
  destruct (mapM_toResource base files log' Hres) as (resources & -> & Hall).
  exists resources. split; [reflexivity|].
  now apply describes_descriptor_of.
Qed.

(** What the read-resource handler does with a URI the URL constructor
    accepts. *)
Lemma ReadResourceRequestHandler_run token owner_ repo_ branch uri u log :
  URL_new (VString uri) None = Some u ->
  ReadResourceRequestHandler network URL_new token owner_ repo_ branch uri log =
  (content <- getFileContent network token owner_ repo_ branch
                (at_index (split (pathname u) (lit "/contents/")) 1) ;;
   ret [ {| content_uri := uri;
            content_mimeType := lit "text/plain";
            content_text := content |} ]) log.
Proof.
  intros Hu. unfold ReadResourceRequestHandler. unfold bind at 1.
  unfold new_URL. now rewrite Hu.
Qed.

(** Where the path component holds "/contents/" exactly once, the handler
    asks for everything after it, and a returned response echoes the
    URI. *)
Lemma read_resource_single_contents
    token owner_ repo_ branch uri u pre post log :
  URL_new (VString uri) None = Some u ->
  pathname u = pre ++ lit "/contents/" ++ post ->
  (forall a b, pre ++ lit "/contents/" ++ post = a ++ lit "/contents/" ++ b ->
               a = pre) ->
  ReadResourceRequestHandler network URL_new token owner_ repo_ branch uri log =
  (content <- getFileContent network token owner_ repo_ branch (Some post) ;;
   ret [ {| content_uri := uri;
            content_mimeType := lit "text/plain";
            content_text := content |} ]) log.
Proof.
  intros Hu Hpath Huniq.
  rewrite (ReadResourceRequestHandler_run _ _ _ _ _ u _ Hu), Hpath.
  rewrite split_unique_occurrence; [reflexivity| |exact Huniq].
  vm_compute. discriminate.
Qed.

(** C1 (the code departs from the claim).  For the URI of the file
    [docs/contents/guide.md], whose path component holds "/contents/"
    twice, the read-resource handler asks [getFileContent] for the path
    "docs" -- the piece between the first two occurrences -- and not
    for "docs/contents/guide.md"; the response's [uri] is the input
    URI. *)
Theorem read_resource_stops_at_second_contents
    token owner_ repo_ branch u log :
  let uri :=
    lit "https://api.github.com/repos/acme/widgets/contents/docs/contents/guide.md" in
  URL_new (VString uri) None = Some u ->
  pathname u = lit "/repos/acme/widgets/contents/docs/contents/guide.md" ->
  ReadResourceRequestHandler network URL_new token owner_ repo_ branch uri log =
  (content <- getFileContent network token owner_ repo_ branch
                (Some (lit "docs")) ;;
   ret [ {| content_uri := uri;
            content_mimeType := lit "text/plain";
            content_text := content |} ]) log
  /\ lit "docs" <> lit "docs/contents/guide.md".
Proof.
  intros uri Hu Hpath. split.
  - unfold ReadResourceRequestHandler. unfold bind at 1. unfold new_URL.
    rewrite Hu. unfold ret at 1. rewrite Hpath. reflexivity.
  - vm_compute. discriminate.
Qed.

End Bridge.

(** ** Decoding inverts encoding *)

Module Decoding.

Import Buffer Spec.

Ltac Zify.zify_post_hook ::= Z.div_mod_to_equations.

(** Split on the outermost test of the goal. *)
Ltac split_if :=
  match goal with
  | |- context [if ?c then _ else _] => destruct c eqn:?
  end.

(** *** Base64 *)

Lemma unbase64_base64_char v :
  0 <= v < 64 ->
  unbase64 (base64_char v) = Some v /\ (base64_char v =? 61) = false.
Proof.
  intros Hv. unfold unbase64, base64_char.
  repeat split_if; split; try (f_equal; lia); lia.
Qed.

Lemma base64_char_ascii v : 0 <= v < 64 -> base64_char v mod 256 = base64_char v.
Proof.
  intros Hv. apply Z.mod_small. unfold base64_char. repeat split_if; lia.
Qed.

Lemma sextets_cons v s :
  0 <= v < 64 -> sextets (base64_char v :: s) = v :: sextets s.
Proof.
  intros Hv. destruct (unbase64_base64_char v Hv) as [Hu Hp].
  cbn [sextets]. rewrite (base64_char_ascii v Hv). now rewrite Hp, Hu.
Qed.

Lemma sextets_padding s : sextets (61 :: s) = [].
Proof. reflexivity. Qed.

Lemma list_ind3 {A} (P : list A -> Prop) :
  P [] -> (forall a, P [a]) -> (forall a b, P [a; b]) ->
  (forall a b c l, P l -> P (a :: b :: c :: l)) ->
  forall l, P l.
Proof.
  intros H0 H1 H2 H3.
  fix IH 1.
  intros [|a [|b [|c l]]];
    [exact H0|apply H1|apply H2|apply H3; apply IH].
Qed.

Lemma from_base64_encode bs :
  Forall is_byte bs -> from_base64 (base64_encode bs) = bs.
Proof.
  unfold from_base64, is_byte.
  induction bs as [|a|a b|a b c l IH] using list_ind3; intros H.
  - reflexivity.
  - inversion_clear H as [|? ? Ha _].
    cbn [base64_encode].
    rewrite !sextets_cons by lia. simpl. f_equal. lia.
  - inversion_clear H as [|? ? Ha H']. inversion_clear H' as [|? ? Hb _].
    cbn [base64_encode].
    rewrite !sextets_cons by lia. simpl. repeat f_equal; lia.
  - inversion_clear H as [|? ? Ha H']. inversion_clear H' as [|? ? Hb H''].
    inversion_clear H'' as [|? ? Hc Hl].
    cbn [base64_encode].
    rewrite !sextets_cons by lia. cbn [pack].
    rewrite (IH Hl). repeat f_equal; lia.
Qed.

(** *** UTF-8 *)

Lemma lead_ascii b : 0 <= b < 128 -> lead b = ([b], Idle).
Proof. intros H. unfold lead. split_if; [reflexivity|lia]. Qed.

Lemma lead_two b :
  194 <= b <= 223 -> lead b = ([], Pending (b - 192) 0 128 191).
Proof. intros H. unfold lead. repeat split_if; try lia; reflexivity. Qed.

Lemma lead_three b :
  224 <= b <= 239 ->
  lead b = ([], Pending (b - 224) 1 (if b =? 224 then 160 else 128)
                  (if b =? 237 then 159 else 191)).
Proof.
  intros H. unfold lead.
  destruct (b <=? 127) eqn:?; [lia|].
  destruct ((194 <=? b) && (b <=? 223)) eqn:?; [lia|].
  destruct ((224 <=? b) && (b <=? 239)) eqn:?; [reflexivity|lia].
Qed.

Lemma lead_four b :
  240 <= b <= 244 ->
  lead b = ([], Pending (b - 240) 2 (if b =? 240 then 144 else 128)
                  (if b =? 244 then 143 else 191)).
Proof.
  intros H. unfold lead.
  destruct (b <=? 127) eqn:?; [lia|].
  destruct ((194 <=? b) && (b <=? 223)) eqn:?; [lia|].
  destruct ((224 <=? b) && (b <=? 239)) eqn:?; [lia|].
  destruct ((240 <=? b) && (b <=? 244)) eqn:?; [reflexivity|lia].
Qed.

Lemma continuation cp more lower upper b bs :
  lower <= b <= upper ->
  utf8_decode (Pending cp more lower upper) (b :: bs) =
  match more with
  | O => (cp * 64 + (b - 128)) :: utf8_decode Idle bs
  | S k => utf8_decode (Pending (cp * 64 + (b - 128)) k 128 191) bs
  end.
Proof.
  intros H. cbn [utf8_decode].
  destruct ((lower <=? b) && (b <=? upper)) eqn:?; [reflexivity|lia].
Qed.

Lemma idle_step b bs :
  utf8_decode Idle (b :: bs) =
  fst (lead b) ++ utf8_decode (snd (lead b)) bs.
Proof. cbn [utf8_decode]. now destruct (lead b). Qed.

Lemma utf8_decode_encode cp rest :
  is_scalar cp ->
  utf8_decode Idle (utf8_encode cp ++ rest) = cp :: utf8_decode Idle rest.
Proof.
  intros Hcp. unfold is_scalar in Hcp. unfold utf8_encode.
  destruct (cp <? 128) eqn:H1; [|destruct (cp <? 2048) eqn:H2;
                                 [|destruct (cp <? 65536) eqn:H3]].
  - cbn [app]. rewrite idle_step, lead_ascii by lia. reflexivity.
  - cbn [app]. rewrite idle_step, lead_two by lia. cbn [fst snd app].
    rewrite continuation by lia. f_equal. lia.
  - cbn [app]. rewrite idle_step, lead_three by lia. cbn [fst snd app].
    rewrite continuation by (repeat split_if; lia).
    rewrite continuation by lia. f_equal. lia.
  - cbn [app]. rewrite idle_step, lead_four by lia. cbn [fst snd app].
    rewrite continuation by (repeat split_if; lia).
    rewrite continuation by lia.
    rewrite continuation by lia. f_equal. lia.
Qed.

Lemma utf8_encode_bytes cp : is_scalar cp -> Forall is_byte (utf8_encode cp).
Proof.
  unfold is_scalar, is_byte, utf8_encode. intros H.
  repeat split_if; repeat constructor; lia.
Qed.

Lemma utf8_decode_flat_map cps :
  Forall is_scalar cps ->
  utf8_decode Idle (flat_map utf8_encode cps) = cps /\
  Forall is_byte (flat_map utf8_encode cps).
Proof.
  induction 1 as [|cp cps Hcp _ [IHd IHb]]; [now split|].
  cbn [flat_map]. split.
  - now rewrite utf8_decode_encode, IHd.
  - apply Forall_app. split; [now apply utf8_encode_bytes|exact IHb].
Qed.

(** *** UTF-16 *)

Lemma code_points_well_formed n :
  forall s, (List.length s <= n)%nat -> isWellFormed s = true ->
  flat_map utf16_units (code_points s) = s /\
  Forall is_scalar (code_points s).
Proof.
  induction n as [|n IH]; intros [|c rest] Hlen Hwf;
    try (split; [reflexivity|constructor]); simpl in Hlen; [lia|].
  cbn [isWellFormed] in Hwf.
  destruct (((0 <=? c) && (c <? 55296)) || ((57343 <? c) && (c <? 65536)))
    eqn:Hbmp.
  - destruct (IH rest ltac:(lia) Hwf) as [IHs IHf].
    assert (Hc : code_points (c :: rest) = c :: code_points rest).
    { cbn [code_points]. unfold is_surrogate.
      destruct rest as [|lo rest']; repeat split_if; try lia; reflexivity. }
    rewrite Hc. cbn [flat_map]. rewrite IHs. split.
    + unfold utf16_units. split_if; [reflexivity|lia].
    + constructor; [unfold is_scalar; lia|exact IHf].
  - destruct ((55296 <=? c) && (c <=? 56319)) eqn:Hhigh; [|discriminate].
    destruct rest as [|lo rest']; [discriminate|].
    apply andb_true_iff in Hwf as [Hlow Hwf].
    simpl in Hlen.
    destruct (IH rest' ltac:(lia) Hwf) as [IHs IHf].
    assert (Hc : code_points (c :: lo :: rest') =
                 (65536 + (c - 55296) * 1024 + (lo - 56320))
                 :: code_points rest').
    { cbn [code_points]. split_if; [reflexivity|lia]. }
    rewrite Hc. cbn [flat_map]. rewrite IHs. split.
    + unfold utf16_units. split_if; [lia|].
      cbn [app]. repeat f_equal; lia.
    + constructor; [unfold is_scalar; lia|exact IHf].
Qed.

(** Decoding the base64 encoding of the UTF-8 bytes of a well-formed
    string gives the string back. *)
Lemma decode_encode s :
  isWellFormed s = true ->
  toString_utf8 (from_base64 (base64_encode (utf8_bytes s))) = s.
Proof.
  intros Hwf.
  destruct (code_points_well_formed _ s (le_n _) Hwf) as [Hs Hf].
  destruct (utf8_decode_flat_map _ Hf) as [Hd Hb].
  unfold toString_utf8, utf8_bytes.
  now rewrite (from_base64_encode _ Hb), Hd.
Qed.

End Decoding.

Section RoundTrip.

Variable network : Network.
Variables token owner_ repo_ : jsstring.

(** C6. For every (well-formed) string [s]: when the validated File
    entry's [content] is the base64 encoding of the UTF-8 bytes of [s],
    [getFileContent] returns exactly [s]. *)
Theorem getFileContent_round_trip branch path log req r body file s :
  sends (getFileContent network token owner_ repo_ branch path) log req ->
  network log req = Some r ->
  ok r = true ->
  json r = Some body ->
  GitHubFileContentSchema body = Some file ->
  Spec.isWellFormed s = true ->
  file_content file = Spec.base64_encode (Spec.utf8_bytes s) ->
  fst (getFileContent network token owner_ repo_ branch path log) = inr s.
Proof.
  intros Hsends Hnet Hok Hjson Hfile Hwf Hcontent.
  rewrite (getFileContent_of_file
             network token owner_ repo_ branch path log req r body file
             Hsends Hnet Hok Hjson Hfile).
  rewrite Hcontent. now rewrite Decoding.decode_encode.
Qed.

End RoundTrip.

(** ** The properties on the sample repository *)

Import Sample.

Ltac nonempty := let H := fresh in intro H; vm_compute in H; discriminate H.

Example split_contents_once :
  at_index (split (lit "/repos/acme/widgets/contents/src/index.ts")
              (lit "/contents/")) 1
  = Some (lit "src/index.ts").
Proof. vm_compute. reflexivity. Qed.

Example split_without_contents :
  at_index (split (lit "/repos/acme/widgets/README.md") (lit "/contents/")) 1
  = None.
Proof. vm_compute. reflexivity. Qed.

Example split_contents_twice :
  split (lit "/repos/acme/widgets/contents/docs/contents/guide.md")
    (lit "/contents/")
  = [lit "/repos/acme/widgets"; lit "docs"; lit "guide.md"].
Proof. vm_compute. reflexivity. Qed.

Example hello_world_decodes :
  Buffer.toString_utf8 (Buffer.from_base64 (lit "aGVsbG8gd29ybGQ="))
  = lit "hello world".
Proof. vm_compute. reflexivity. Qed.

Example hello_world_encodes :
  Spec.base64_encode (Spec.utf8_bytes (lit "hello world"))
  = lit "aGVsbG8gd29ybGQ=".
Proof. vm_compute. reflexivity. Qed.

(** The forge breaks the content into lines; the decoder passes over the
    line breaks. *)
Example line_breaks_are_skipped :
  Buffer.toString_utf8 (Buffer.from_base64 (lit "aGVsbG8g" ++ [10] ++ lit "d29ybGQ=" ++ [10]))
  = lit "hello world".
Proof. vm_compute. reflexivity. Qed.

Example list_resources_on_sample :
  ListResourcesRequestHandler (answers (success (VArray [readme; src])))
    plain_URL (lit "ghp_example") (lit "acme") (lit "widgets") None base []
  = (inr [ {| res_uri := lit "https://api.github.com/repos/acme/widgets/contents/README.md";
              res_mimeType := lit "text/plain";
              res_name := VString (lit "README.md") |};
           {| res_uri := lit "https://api.github.com/repos/acme/widgets/contents/src";
              res_mimeType := lit "application/x-directory";
              res_name := VString (lit "src") |} ],
     [ {| req_url := lit "https://api.github.com/repos/acme/widgets/contents/";
          req_headers :=
            [ (lit "Authorization", lit "token ghp_example");
              (lit "Accept", lit "application/vnd.github.v3+json");
              (lit "User-Agent", lit "mcp-server-github-repo") ] |} ]).
Proof. vm_compute. reflexivity. Qed.

Example read_resource_on_sample :
  ReadResourceRequestHandler (answers (success readme))
    plain_URL (lit "ghp_example") (lit "acme") (lit "widgets") None
    (lit "https://api.github.com/repos/acme/widgets/contents/README.md") []
  = (inr [ {| content_uri := lit "https://api.github.com/repos/acme/widgets/contents/README.md";
              content_mimeType := lit "text/plain";
              content_text := lit "hello world" |} ],
     [ {| req_url := lit "https://api.github.com/repos/acme/widgets/contents/README.md";
          req_headers :=
            [ (lit "Authorization", lit "token ghp_example");
              (lit "Accept", lit "application/vnd.github.v3+json");
              (lit "User-Agent", lit "mcp-server-github-repo") ] |} ]).
Proof. vm_compute. reflexivity. Qed.

(** The request the read-resource handler sends for the file
    [docs/contents/guide.md]: it asks the forge for [docs]. *)
Example read_resource_requests_docs :
  map req_url
    (snd (ReadResourceRequestHandler (answers not_found)
            plain_URL (lit "ghp_example") (lit "acme") (lit "widgets") None
            (lit "https://api.github.com/repos/acme/widgets/contents/docs/contents/guide.md")
            []))
  = [lit "https://api.github.com/repos/acme/widgets/contents/docs"].
Proof. vm_compute. reflexivity. Qed.

Example list_tools_is_empty :
  ListToolsRequestHandler [] = (inr [], []).
Proof. reflexivity. Qed.

(** *** Instances of the theorems *)

Lemma read_resource_stops_at_second_contents_witness :
  ReadResourceRequestHandler (answers (success readme)) plain_URL
    (lit "ghp_example") (lit "acme") (lit "widgets") None
    (lit "https://api.github.com/repos/acme/widgets/contents/docs/contents/guide.md")
    [] =
  (content <- getFileContent (answers (success readme))
                (lit "ghp_example") (lit "acme") (lit "widgets") None
                (Some (lit "docs")) ;;
   ret [ {| content_uri :=
              lit "https://api.github.com/repos/acme/widgets/contents/docs/contents/guide.md";
            content_mimeType := lit "text/plain";
            content_text := content |} ]) []
  /\ lit "docs" <> lit "docs/contents/guide.md".
Proof.
  apply (read_resource_stops_at_second_contents
           (answers (success readme)) plain_URL
           (lit "ghp_example") (lit "acme") (lit "widgets") None
           {| href := lit "https://api.github.com/repos/acme/widgets/contents/docs/contents/guide.md";
              pathname := lit "/repos/acme/widgets/contents/docs/contents/guide.md" |}
           []).
  - vm_compute. reflexivity.
  - reflexivity.
Defined.

Lemma createGithubRepoServer_validates_in_order_witness :
  createGithubRepoServer (answers not_found) plain_URL
    {| githubPersonalAccessToken := []; owner := lit "acme";
       repo := lit "widgets"; branch := None |} []
  = (inl (Error (lit "githubPersonalAccessToken is required")), [])
  /\ createGithubRepoServer (answers not_found) plain_URL
       {| githubPersonalAccessToken := lit "ghp_example"; owner := [];
          repo := lit "widgets"; branch := None |} []
     = (inl (Error (lit "owner is required")), [])
  /\ createGithubRepoServer (answers not_found) plain_URL
       {| githubPersonalAccessToken := lit "ghp_example"; owner := lit "acme";
          repo := []; branch := None |} []
     = (inl (Error (lit "repo is required")), [])
  /\ exists server,
       createGithubRepoServer (answers not_found) plain_URL acme []
       = (inr server, []).
Proof.
  split; [|split; [|split]].
  - apply (proj1 (createGithubRepoServer_validates_in_order
                    (answers not_found) plain_URL _ [])).
    reflexivity.
  - apply (proj1 (proj2 (createGithubRepoServer_validates_in_order
                           (answers not_found) plain_URL _ []))).
    + nonempty.
    + reflexivity.
  - apply (proj1 (proj2 (proj2 (createGithubRepoServer_validates_in_order
                                  (answers not_found) plain_URL _ [])))).
    + nonempty.
    + nonempty.
    + reflexivity.
  - apply (proj2 (proj2 (proj2 (createGithubRepoServer_validates_in_order
                                  (answers not_found) plain_URL acme [])))
             ltac:(nonempty) ltac:(nonempty) ltac:(nonempty) base).
    vm_compute. reflexivity.
Defined.

Lemma listFiles_normalises_to_sequence_witness :
  fst (listFiles (answers (success (VArray [readme; src])))
         (lit "ghp_example") (lit "acme") (lit "widgets") None None [])
  = inr [readme; src]
  /\ fst (listFiles (answers (success readme))
            (lit "ghp_example") (lit "acme") (lit "widgets") None None [])
     = inr [readme].
Proof.
  split.
  - apply (proj1 (listFiles_normalises_to_sequence
                    (answers (success (VArray [readme; src])))
                    (lit "ghp_example") (lit "acme") (lit "widgets") None None []
                    (request (lit "https://api.github.com/repos/acme/widgets/contents/"))
                    (success (VArray [readme; src])) (VArray [readme; src])
                    ltac:(vm_compute; reflexivity) eq_refl eq_refl eq_refl)).
    reflexivity.
  - apply (proj1 (proj2 (listFiles_normalises_to_sequence
                    (answers (success readme))
                    (lit "ghp_example") (lit "acme") (lit "widgets") None None []
                    (request (lit "https://api.github.com/repos/acme/widgets/contents/"))
                    (success readme) readme
                    ltac:(vm_compute; reflexivity) eq_refl eq_refl eq_refl)) _).
    reflexivity.
Defined.

(** The keys of a sample object are distinct. *)
Ltac distinct_keys :=
  cbn [map fst];
  repeat (constructor; [vm_compute; intuition discriminate|]);
  constructor.

Lemma list_resources_describes_every_entry_witness :
  exists server,
    createGithubRepoServer (answers (success (VArray [readme; src])))
      plain_URL acme [] = (inr server, [])
    /\ fst (onListResources server []) =
       inr [ {| res_uri := lit "https://api.github.com/repos/acme/widgets/contents/README.md";
                res_mimeType := lit "text/plain";
                res_name := VString (lit "README.md") |};
             {| res_uri := lit "https://api.github.com/repos/acme/widgets/contents/src";
                res_mimeType := lit "application/x-directory";
                res_name := VString (lit "src") |} ]
    /\ Forall2 (descriptor_of plain_URL base) [readme; src]
         [ {| res_uri := lit "https://api.github.com/repos/acme/widgets/contents/README.md";
              res_mimeType := lit "text/plain";
              res_name := VString (lit "README.md") |};
           {| res_uri := lit "https://api.github.com/repos/acme/widgets/contents/src";
              res_mimeType := lit "application/x-directory";
              res_name := VString (lit "src") |} ].
Proof.
  eexists.
  assert (Hserver :
    createGithubRepoServer (answers (success (VArray [readme; src])))
      plain_URL acme [] = (inr ?[server], [])) by (vm_compute; reflexivity).
  split; [exact Hserver|].
  destruct (list_resources_describes_every_entry
              (answers (success (VArray [readme; src]))) plain_URL
              acme [] _ [] base [] [readme; src] Hserver)
    as (resources & Hrun & Hall).
  - vm_compute. reflexivity.
  - reflexivity.
  - constructor; [|constructor; [|constructor]].
    + eexists _, (VString (lit "README.md")), _.
      split; [reflexivity|]. split; [distinct_keys|].
      split; [left; simpl; tauto|]. vm_compute. reflexivity.
    + eexists _, (VString (lit "src")), _.
      split; [reflexivity|]. split; [distinct_keys|].
      split; [left; simpl; tauto|]. vm_compute. reflexivity.
  - match type of Hrun with
    | fst (onListResources ?srv []) = _ =>
        assert (Hvalue :
          fst (onListResources srv []) =
          inr [ {| res_uri := lit "https://api.github.com/repos/acme/widgets/contents/README.md";
                   res_mimeType := lit "text/plain";
                   res_name := VString (lit "README.md") |};
                {| res_uri := lit "https://api.github.com/repos/acme/widgets/contents/src";
                   res_mimeType := lit "application/x-directory";
                   res_name := VString (lit "src") |} ])
          by (vm_compute; reflexivity)
    end.
    pose proof (eq_trans (eq_sym Hrun) Hvalue) as Heq. injection Heq as ->.
    split; [exact Hvalue|exact Hall].
Defined.

(** C4, the claim as first stated: a successful root listing can hold an
    entry the handler cannot describe.  The body [[null]] is listed as
    the one-entry sequence [[null]], and the handler throws a TypeError
    instead of returning a descriptor for it. *)
Lemma list_resources_fails_on_null_entry :
  exists server,
    createGithubRepoServer (answers (success (VArray [VNull])))
      plain_URL acme [] = (inr server, [])
    /\ fst (listFiles (answers (success (VArray [VNull])))
              (githubPersonalAccessToken acme) (owner acme) (repo acme)
              (branch acme) None []) = inr [VNull]
    /\ fst (onListResources server []) = inl TypeError
    /\ forall resources, fst (onListResources server []) <> inr resources.
Proof.
  eexists. split; [vm_compute; reflexivity|].
  split; [vm_compute; reflexivity|].
  match goal with
  | |- fst (onListResources ?srv []) = _ /\ _ =>
      assert (H : fst (onListResources srv []) = inl TypeError)
        by (vm_compute; reflexivity)
  end.
  split; [exact H|].
  intros resources Hr.
  pose proof (eq_trans (eq_sym H) Hr) as Heq. discriminate Heq.
Qed.

Lemma getFileContent_rejects_directory_witness :
  exists e,
    fst (getFileContent (answers (success (VArray [src])))
           (lit "ghp_example") (lit "acme") (lit "widgets") None
           (Some (lit "src")) []) = inl e /\
    e = Error (lit "Path points to a directory, not a file") /\
    is_invalid_input_error e /\
    ~ is_forge_api_error e /\
    ~ is_shape_validation_error e.
Proof.
  eapply (getFileContent_rejects_directory
            (answers (success (VArray [src])))
            (lit "ghp_example") (lit "acme") (lit "widgets") None
            (Some (lit "src")) []
            (request (lit "https://api.github.com/repos/acme/widgets/contents/src"))
            (success (VArray [src])) [src]).
  - vm_compute. reflexivity.
  - reflexivity.
  - reflexivity.
  - reflexivity.
  - vm_compute. reflexivity.
Defined.

Lemma getFileContent_round_trip_witness :
  fst (getFileContent (answers (success readme))
         (lit "ghp_example") (lit "acme") (lit "widgets") None
         (Some (lit "README.md")) []) = inr (lit "hello world").
Proof.
  eapply (getFileContent_round_trip
            (answers (success readme))
            (lit "ghp_example") (lit "acme") (lit "widgets") None
            (Some (lit "README.md")) []
            (request (lit "https://api.github.com/repos/acme/widgets/contents/README.md"))
            (success readme) readme).
  - vm_compute. reflexivity.
  - reflexivity.
  - reflexivity.
  - reflexivity.
  - vm_compute. reflexivity.
  - vm_compute. reflexivity.
  - vm_compute. reflexivity.
Defined.

Lemma outbound_url_ref_iff_branch_witness :
  (exists headers,
     sends (listFiles (answers not_found)
              (lit "ghp_example") (lit "acme") (lit "widgets")
              (Some (lit "develop")) (Some (lit "src"))) []
       {| req_url :=
            (lit "https://api.github.com/repos/" ++ lit "acme" ++ lit "/"
             ++ lit "widgets" ++ lit "/contents/" ++ lit "src")
            ++ lit "?ref=" ++ lit "develop";
          req_headers := headers |})
  /\ (exists headers,
        sends (getFileContent (answers not_found)
                 (lit "ghp_example") (lit "acme") (lit "widgets")
                 None (Some (lit "src"))) []
          {| req_url :=
               lit "https://api.github.com/repos/" ++ lit "acme" ++ lit "/"
               ++ lit "widgets" ++ lit "/contents/" ++ lit "src";
             req_headers := headers |}).
Proof.
  split.
  - apply (proj1 (outbound_url_ref_iff_branch
                    (answers not_found)
                    (lit "ghp_example") (lit "acme") (lit "widgets")
                    (Some (lit "develop")) (lit "src") [])
             (lit "develop") eq_refl ltac:(nonempty)).
  - apply (proj2 (outbound_url_ref_iff_branch
                    (answers not_found)
                    (lit "ghp_example") (lit "acme") (lit "widgets")
                    None (lit "src") [])
             eq_refl).
Defined.

Lemma non_success_status_fails_once_witness :
  fst (listFiles (answers not_found)
         (lit "ghp_example") (lit "acme") (lit "widgets") None
         (Some (lit "missing")) [])
  = inl (Error (lit "GitHub API error: " ++ lit "Not Found"))
  /\ fst (getFileContent (answers not_found)
            (lit "ghp_example") (lit "acme") (lit "widgets") None
            (Some (lit "missing")) [])
     = inl (Error (lit "GitHub API error: " ++ lit "Not Found")).
Proof.
  destruct (non_success_status_fails_once
              (answers not_found)
              (lit "ghp_example") (lit "acme") (lit "widgets") None
              (Some (lit "missing")) [])
    as [(req & _ & Hlist) (req' & _ & Hget)].
  split.
  - now rewrite (proj1 (Hlist not_found eq_refl eq_refl)).
  - now rewrite (proj1 (Hget not_found eq_refl eq_refl)).
Defined.

Lemma empty_branch_is_no_branch_witness :
  runServer (answers not_found) plain_URL (environment (Some [])) [] =
  runServer (answers not_found) plain_URL
    (unset (lit "GITHUB_BRANCH") (environment (Some []))) [].
Proof.
  apply (proj1 (proj2 (proj2 (proj2 (empty_branch_is_no_branch
                                       (answers not_found) plain_URL))))).
  vm_compute. reflexivity.
Defined.

(** * Further properties *)

(** ** Outcomes of the content-access layer *)

Lemma GitHubContentSchema_error v e :
  GitHubContentSchema v = inl e -> e = ZodError.
Proof.
  unfold GitHubContentSchema.
  destruct (GitHubFileContentSchema v); [discriminate|].
  destruct v; try congruence.
  destruct (z_array _ _); congruence.
Qed.

Lemma z_array_rejects {A} (schema : value -> option A) items :
  Exists (fun x => schema x = None) items -> z_array schema items = None.
Proof.
  induction 1 as [x items Hx|x items _ IH]; cbn [z_array].
  - now rewrite Hx.
  - destruct (schema x); [|reflexivity]. now rewrite IH.
Qed.

Lemma file_schema_requires_strings o k :
  In k file_string_keys ->
  z_string (lookup (lit k) o) = None ->
  GitHubFileContentSchema (VObject o) = None.
Proof.
  intros Hin Hk. unfold GitHubFileContentSchema.
  simpl in Hin.
  repeat (destruct Hin as [<-|Hin]; [now rewrite ?Hk;
    repeat match goal with
           | |- context [match ?x with Some _ => _ | None => _ end] =>
               destruct x; try rewrite Hk; try reflexivity
           end|]).
  contradiction.
Qed.

Section FurtherContentAccess.

Variable network : Network.
Variables token owner_ repo_ : jsstring.

Local Abbreviation listFiles' := (listFiles network token owner_ repo_).
Local Abbreviation getFileContent' := (getFileContent network token owner_ repo_).

(** X1. [listFiles] sends exactly one request and ends in one of four
    ways, told apart by the answer alone: a failed fetch (TypeError), a
    non-success status (forge-API error), a body that is not JSON
    (SyntaxError), or success with a sequence for any JSON body at all.
    It never throws a shape-validation or an invalid-input error. *)
Theorem listFiles_outcomes branch path log :
  exists req,
    sends (listFiles' branch path) log req /\
    ((network log req = None /\
      fst (listFiles' branch path log) = inl TypeError) \/
     (exists r, network log req = Some r /\ ok r = false /\
        fst (listFiles' branch path log) =
        inl (Error (lit "GitHub API error: " ++ statusText r))) \/
     (exists r, network log req = Some r /\ ok r = true /\ json r = None /\
        fst (listFiles' branch path log) = inl SyntaxError) \/
     (exists r body files,
        network log req = Some r /\ ok r = true /\ json r = Some body /\
        fst (listFiles' branch path log) = inr files /\
        (forall items, body = VArray items -> files = items) /\
        (isArray body = false -> files = [body]))) /\
    (forall e, fst (listFiles' branch path log) = inl e ->
       ~ is_shape_validation_error e /\ ~ is_invalid_input_error e).
Proof.
  destruct (listFiles_sends network token owner_ repo_ branch path log)
    as [req Hsends].
  exists req. split; [exact Hsends|].
  rewrite (listFiles_answer network token owner_ repo_ branch path log req Hsends).
  destruct (network log req) as [r|] eqn:Hnet.
  - destruct (ok r) eqn:Hok; cbn [negb].
    + destruct (json r) as [body|] eqn:Hjson.
      * split.
        -- right; right; right.
           exists r, body.
           destruct body; eexists;
             (split; [reflexivity|]); (split; [assumption|]);
             (split; [assumption|]); (split; [reflexivity|]);
             (split; [intros its H; congruence|]);
             intros H; try discriminate H; reflexivity.
        -- intros e He. destruct body; discriminate He.
      * split.
        -- right; right; left. now exists r.
        -- intros e He. injection He as <-. split; intros H; discriminate H.
    + split.
      * right; left. now exists r.
      * intros e He. cbn [fst] in He. injection He as <-. split.
        -- intros H; discriminate H.
        -- intros H. unfold is_invalid_input_error in H.
           vm_compute in H. discriminate H.
  - split.
    + now left.
    + intros e He. injection He as <-. split; intros H; discriminate H.
Qed.

(** X2. [getFileContent] sends exactly one request and ends in one of six
    ways, told apart by the answer alone: a failed fetch, a non-success
    status, a body that is not JSON, a body of the wrong shape
    (ZodError), a directory listing, or the decoded content of a File
    entry. *)
Theorem getFileContent_outcomes branch path log :
  exists req,
    sends (getFileContent' branch path) log req /\
    ((network log req = None /\
      fst (getFileContent' branch path log) = inl TypeError) \/
     (exists r, network log req = Some r /\ ok r = false /\
        fst (getFileContent' branch path log) =
        inl (Error (lit "GitHub API error: " ++ statusText r))) \/
     (exists r, network log req = Some r /\ ok r = true /\ json r = None /\
        fst (getFileContent' branch path log) = inl SyntaxError) \/
     (exists r body,
        network log req = Some r /\ ok r = true /\ json r = Some body /\
        GitHubContentSchema body = inl ZodError /\
        fst (getFileContent' branch path log) = inl ZodError) \/
     (exists r body dirs,
        network log req = Some r /\ ok r = true /\ json r = Some body /\
        GitHubContentSchema body = inr (inr dirs) /\
        fst (getFileContent' branch path log) =
        inl (Error (lit "Path points to a directory, not a file"))) \/
     (exists r body file,
        network log req = Some r /\ ok r = true /\ json r = Some body /\
        GitHubContentSchema body = inr (inl file) /\
        fst (getFileContent' branch path log) =
        inr (Buffer.toString_utf8 (Buffer.from_base64 (file_content file))))).
Proof.
  destruct (getFileContent_sends network token owner_ repo_ branch path log)
    as [req Hsends].
  exists req. split; [exact Hsends|].
  rewrite (getFileContent_answer network token owner_ repo_ branch path log
             req Hsends).
  destruct (network log req) as [r|] eqn:Hnet; [|now left].
  destruct (ok r) eqn:Hok; cbn [negb].
  - destruct (json r) as [body|] eqn:Hjson.
    + destruct (GitHubContentSchema body) as [e|[file|dirs]] eqn:Hschema.
      * apply GitHubContentSchema_error in Hschema as He. subst e.
        right; right; right; left. now exists r, body.
      * right; right; right; right; right. now exists r, body, file.
      * right; right; right; right; left. now exists r, body, dirs.
    + right; right; left. now exists r.
  - right; left. now exists r.
Qed.

(** X3. Both operations authenticate alike: whatever the path, the
    branch and the answer, the one request carries exactly the headers
    [Authorization: token <token>], [Accept:
    application/vnd.github.v3+json] and [User-Agent:
    mcp-server-github-repo], in that order. *)
Theorem requests_carry_credentials branch path log :
  let headers :=
    [ (lit "Authorization", lit "token " ++ token);
      (lit "Accept", lit "application/vnd.github.v3+json");
      (lit "User-Agent", lit "mcp-server-github-repo") ] in
  (exists url,
     sends (listFiles' branch path) log
       {| req_url := url; req_headers := headers |}) /\
  (exists url,
     sends (getFileContent' branch path) log
       {| req_url := url; req_headers := headers |}).
Proof.
  intros headers; subst headers. split.
  - eexists. unfold sends, listFiles, bind, fetch. cbv zeta.
    destruct (network log _) as [r|]; [|reflexivity].
    destruct (ok r); simpl; [|reflexivity].
    unfold response_json. destruct (json r) as [body|]; reflexivity.
  - eexists. unfold sends, getFileContent, bind, fetch. cbv zeta.
    destruct (network log _) as [r|]; [|reflexivity].
    destruct (ok r); simpl; [|reflexivity].
    unfold response_json. destruct (json r) as [body|]; [|reflexivity].
    unfold ret at 1. unfold lift.
    destruct (GitHubContentSchema body) as [e|[file|dirs]]; reflexivity.
Qed.

(** X4. A single object that lacks one of the ten string properties of a
    File entry, or holds a non-string there (a submodule or directory
    object without [content], a [download_url] of [null]), makes
    [getFileContent] throw a ZodError. *)
Theorem getFileContent_rejects_malformed_object
    branch path log req r o k :
  sends (getFileContent' branch path) log req ->
  network log req = Some r ->
  ok r = true ->
  json r = Some (VObject o) ->
  In k file_string_keys ->
  z_string (lookup (lit k) o) = None ->
  fst (getFileContent' branch path log) = inl ZodError.
Proof.
  intros Hsends Hnet Hok Hjson Hin Hk.
  rewrite (getFileContent_answer network token owner_ repo_ branch path log
             req Hsends).
  rewrite Hnet, Hok, Hjson. cbn [negb].
  unfold GitHubContentSchema.
  now rewrite (file_schema_requires_strings o k Hin Hk).
Qed.

(** X5. An array body in which some element fails the directory-entry
    schema makes [getFileContent] throw a ZodError, not the directory
    error. *)
Theorem getFileContent_rejects_malformed_listing
    branch path log req r items :
  sends (getFileContent' branch path) log req ->
  network log req = Some r ->
  ok r = true ->
  json r = Some (VArray items) ->
  Exists (fun x => GitHubDirectoryContentSchema x = None) items ->
  fst (getFileContent' branch path log) = inl ZodError /\
  ~ is_invalid_input_error ZodError.
Proof.
  intros Hsends Hnet Hok Hjson Hbad.
  rewrite (getFileContent_answer network token owner_ repo_ branch path log
             req Hsends).
  rewrite Hnet, Hok, Hjson. cbn [negb].
  unfold GitHubContentSchema. cbn [GitHubFileContentSchema].
  rewrite (z_array_rejects _ _ Hbad).
  split; [reflexivity|]. intros H; discriminate H.
Qed.

(** X6. Only the file-read path validates.  For the same path and the
    same ok answer with a body the content schema rejects, [listFiles]
    returns a sequence (the body's items, or the body alone) where
    [getFileContent] throws a ZodError. *)
Theorem validation_only_on_file_read
    branch path log req req' r body :
  sends (listFiles' branch path) log req ->
  sends (getFileContent' branch path) log req' ->
  network log req = Some r ->
  network log req' = Some r ->
  ok r = true ->
  json r = Some body ->
  GitHubContentSchema body = inl ZodError ->
  (exists files, fst (listFiles' branch path log) = inr files) /\
  fst (getFileContent' branch path log) = inl ZodError.
Proof.
  intros Hsends Hsends' Hnet Hnet' Hok Hjson Hschema. split.
  - rewrite (listFiles_answer network token owner_ repo_ _ path log req Hsends).
    rewrite Hnet, Hok, Hjson. cbn [negb].
    destruct body; eexists; reflexivity.
  - rewrite (getFileContent_answer network token owner_ repo_ _ path log
               req' Hsends').
    rewrite Hnet', Hok, Hjson. cbn [negb]. now rewrite Hschema.
Qed.

End FurtherContentAccess.

(** ** More on [split] *)

Lemma is_prefix_app p s : is_prefix p (p ++ s) = true.
Proof.
  induction p as [|x p IH]; [reflexivity|].
  simpl. now rewrite Z.eqb_refl.
Qed.

Lemma split_from_nonempty sep skip cur s : split_from sep skip cur s <> [].
Proof.
  revert skip cur; induction s as [|c s IH]; intros skip cur; cbn [split_from].
  - discriminate.
  - destruct skip; [|apply IH].
    destruct (is_prefix sep (c :: s)); [discriminate|apply IH].
Qed.

Lemma split_from_occurs sep cur a b :
  sep <> [] ->
  exists p q rest, split_from sep O cur (a ++ sep ++ b) = p :: q :: rest.
Proof.
  intros Hsep. revert cur; induction a as [|c a IH]; intros cur.
  - destruct sep as [|x sep']; [congruence|].
    cbn [app split_from].
    change (x :: sep' ++ b) with ((x :: sep') ++ b).
    rewrite is_prefix_app.
    destruct (split_from (x :: sep') (Nat.pred (List.length (x :: sep'))) []
                (sep' ++ b)) as [|q rest] eqn:E.
    + now apply split_from_nonempty in E.
    + now exists (rev cur), q, rest.
  - cbn [app split_from].
    destruct (is_prefix sep (c :: a ++ sep ++ b)).
    + destruct (split_from sep (Nat.pred (List.length sep)) []
                  (a ++ sep ++ b)) as [|q rest] eqn:E.
      * now apply split_from_nonempty in E.
      * now exists (rev cur), q, rest.
    + apply IH.
Qed.

Lemma split_no_occurrence s sep :
  sep <> [] -> ~ occurs sep s -> split s sep = [s].
Proof.
  intros Hsep Hno. unfold split.
  destruct sep as [|x sep'] eqn:Esep; [congruence|]. rewrite <- Esep in *.
  rewrite split_from_no_occurrence; [reflexivity|exact Hsep|].
  intros a b Hab. apply Hno. now exists a, b.
Qed.

Lemma split_occurs s sep :
  sep <> [] -> occurs sep s ->
  exists p q rest, split s sep = p :: q :: rest.
Proof.
  intros Hsep (a & b & ->). unfold split.
  destruct sep as [|x sep'] eqn:Esep; [congruence|]. rewrite <- Esep in *.
  now apply split_from_occurs.
Qed.

(** ** The handlers *)

Section FurtherBridge.

Variable network : Network.
Variable URL_new : URLConstructor.

Local Abbreviation createGithubRepoServer' :=
  (createGithubRepoServer network URL_new).

Lemma toResource_log base file log :
  snd (toResource URL_new base file log) = log.
Proof.
  unfold toResource, bind, new_URL, lift.
  destruct (get_prop file (lit "path")) as [e|path]; [reflexivity|].
  cbn. destruct (URL_new path (Some base)); [|reflexivity].
  cbn. destruct (get_prop file (lit "type")); reflexivity.
Qed.

Lemma mapM_toResource_log base files log :
  snd (mapM (toResource URL_new base) files log) = log.
Proof.
  induction files as [|file files IH]; [reflexivity|].
  cbn [mapM]. unfold bind at 1.
  pose proof (toResource_log base file log) as Hlog.
  destruct (toResource URL_new base file log) as [[e|res] log'];
    cbn [snd] in Hlog; subst log'; [reflexivity|].
  unfold bind. specialize IH.
  destruct (mapM (toResource URL_new base) files log) as [[e|rs] log'];
    cbn [snd] in IH; subst log'; reflexivity.
Qed.

Lemma resolvable_dec base file :
  resolvable URL_new base file \/ ~ resolvable URL_new base file.
Proof.
  unfold resolvable.
  destruct (get_prop file (lit "path")) as [e|path] eqn:Hpath.
  - right. intros (p & u & Hp & _). discriminate Hp.
  - destruct (URL_new path (Some base)) as [u|] eqn:Hu.
    + left. now exists path, u.
    + right. intros (p & u & Hp & Hu'). injection Hp as <-. congruence.
Qed.

Lemma Forall_resolvable_dec base files :
  Forall (resolvable URL_new base) files \/
  ~ Forall (resolvable URL_new base) files.
Proof.
  induction files as [|file files [IH|IH]].
  - left. constructor.
  - destruct (resolvable_dec base file) as [H|H].
    + left. now constructor.
    + right. intros Hall. inversion Hall. contradiction.
  - right. intros Hall. inversion Hall. contradiction.
Qed.

(** X7. The list-resources handler sends exactly one request, for the
    repository root (empty path, with [?ref=<branch>] when a branch is
    set), whatever the answer and however many entries it lists: it does
    not descend into directories. *)
Theorem list_resources_requests_root_once
    token owner_ repo_ branch base log :
  exists headers,
    sends (ListResourcesRequestHandler network URL_new
             token owner_ repo_ branch base) log
      {| req_url :=
           (lit "https://api.github.com/repos/" ++ owner_ ++ lit "/"
            ++ repo_ ++ lit "/contents/")
           ++ (if truthy_opt branch then lit "?ref=" ++ template branch else []);
         req_headers := headers |}.
Proof.
  destruct (listFiles_log network token owner_ repo_ branch None log)
    as [headers Hlog].
  exists headers. unfold sends in *.
  change (lit "/contents/" ++ lit "") with (lit "/contents/" ++ []) in Hlog.
  rewrite app_nil_r in Hlog. rewrite <- Hlog.
  unfold ListResourcesRequestHandler, bind.
  destruct (listFiles network token owner_ repo_ branch None log)
    as [[e|files] log']; [reflexivity|].
  cbn [snd]. apply mapM_toResource_log.
Qed.

(** X8. A failure of the root listing is the handler's failure: the same
    error, and the same log of requests. *)
Theorem list_resources_propagates_failure
    token owner_ repo_ branch base log e :
  fst (listFiles network token owner_ repo_ branch None log) = inl e ->
  ListResourcesRequestHandler network URL_new token owner_ repo_ branch base log
  = (inl e, snd (listFiles network token owner_ repo_ branch None log)).
Proof.
  intros He. unfold ListResourcesRequestHandler, bind.
  destruct (listFiles network token owner_ repo_ branch None log)
    as [[e'|files] log']; cbn [fst snd] in *; congruence.
Qed.

(** X9. The listing is all or nothing.  After a successful root listing
    the handler returns descriptors exactly when every entry is
    resolvable; one entry that is [null], or whose [path] the URL
    constructor rejects, turns the whole response into a TypeError. *)
Theorem list_resources_all_or_nothing
    token owner_ repo_ branch base log files :
  fst (listFiles network token owner_ repo_ branch None log) = inr files ->
  ((exists resources,
      fst (ListResourcesRequestHandler network URL_new
             token owner_ repo_ branch base log) = inr resources) <->
   Forall (resolvable URL_new base) files) /\
  (~ Forall (resolvable URL_new base) files ->
   fst (ListResourcesRequestHandler network URL_new
          token owner_ repo_ branch base log) = inl TypeError).
Proof.
  intros Hfiles. unfold ListResourcesRequestHandler, bind.
  destruct (listFiles network token owner_ repo_ branch None log)
    as [res log']. cbn [fst] in Hfiles. subst res.
  assert (Hbad : ~ Forall (resolvable URL_new base) files ->
                 fst (mapM (toResource URL_new base) files log') = inl TypeError).
  { intros Hnot.
    now rewrite (mapM_toResource_unresolvable URL_new base files log' Hnot). }
  split; [split|exact Hbad].
  - intros [resources Hrun].
    destruct (Forall_resolvable_dec base files) as [H|H]; [exact H|].
    rewrite (Hbad H) in Hrun. discriminate Hrun.
  - intros Hall.
    destruct (mapM_toResource URL_new base files log' Hall)
      as (resources & Hrun & _).
    exists resources. now rewrite Hrun.
Qed.

(** X10. Every successful read-resource response holds exactly one item:
    its [uri] is the requested URI unchanged, its [mimeType] is
    "text/plain" whatever the file, and its [text] is what
    [getFileContent] returned. *)
Theorem read_resource_response_shape
    token owner_ repo_ branch uri log contents :
  fst (ReadResourceRequestHandler network URL_new
         token owner_ repo_ branch uri log) = inr contents ->
  exists path text,
    fst (getFileContent network token owner_ repo_ branch path log) = inr text /\
    contents = [ {| content_uri := uri;
                    content_mimeType := lit "text/plain";
                    content_text := text |} ].
Proof.
  unfold ReadResourceRequestHandler. unfold bind at 1. unfold new_URL.
  destruct (URL_new (VString uri) None) as [u|]; [|discriminate].
  unfold ret at 1. unfold bind.
  intros H.
  exists (at_index (split (pathname u) (lit "/contents/")) 1).
  destruct (getFileContent network token owner_ repo_ branch _ log)
    as [[e|text] log']; [discriminate|].
  exists text. cbn in H. injection H as <-. split; reflexivity.
Qed.

(** X11. The read-resource handler sends no request when the URL
    constructor rejects the URI (it throws a TypeError at once), and
    exactly one request when it accepts it. *)
Theorem read_resource_at_most_one_request
    token owner_ repo_ branch uri log :
  (URL_new (VString uri) None = None ->
   ReadResourceRequestHandler network URL_new token owner_ repo_ branch uri log
   = (inl TypeError, log)) /\
  (forall u, URL_new (VString uri) None = Some u ->
   exists req,
     sends (ReadResourceRequestHandler network URL_new
              token owner_ repo_ branch uri) log req).
Proof.
  split.
  - intros Hu. unfold ReadResourceRequestHandler. unfold bind at 1.
    unfold new_URL. now rewrite Hu.
  - intros u Hu.
    destruct (getFileContent_sends network token owner_ repo_ branch
                (at_index (split (pathname u) (lit "/contents/")) 1) log)
      as [req Hsends].
    exists req. unfold sends in *.
    rewrite (ReadResourceRequestHandler_run network URL_new _ _ _ _ _ u _ Hu).
    unfold bind.
    destruct (getFileContent network token owner_ repo_ branch _ log)
      as [[e|text] log']; exact Hsends.
Qed.

(** X12. When the URI's path component does not hold "/contents/", the
    extracted path is [undefined] and the handler asks the forge for the
    file named "undefined":
    [https://api.github.com/repos/{owner}/{repo}/contents/undefined].
    When it does hold "/contents/", the extracted path is a string. *)
Theorem read_resource_without_contents
    token owner_ repo_ branch uri u log :
  URL_new (VString uri) None = Some u ->
  (~ occurs (lit "/contents/") (pathname u) ->
   exists headers,
     sends (ReadResourceRequestHandler network URL_new
              token owner_ repo_ branch uri) log
       {| req_url :=
            (lit "https://api.github.com/repos/" ++ owner_ ++ lit "/"
             ++ repo_ ++ lit "/contents/" ++ lit "undefined")
            ++ (if truthy_opt branch then lit "?ref=" ++ template branch
                else []);
          req_headers := headers |}) /\
  (occurs (lit "/contents/") (pathname u) ->
   exists path,
     ReadResourceRequestHandler network URL_new token owner_ repo_ branch
       uri log =
     (content <- getFileContent network token owner_ repo_ branch (Some path) ;;
      ret [ {| content_uri := uri;
               content_mimeType := lit "text/plain";
               content_text := content |} ]) log).
Proof.
  intros Hu. split.
  - intros Hno.
    assert (Hsplit : at_index (split (pathname u) (lit "/contents/")) 1 = None).
    { rewrite split_no_occurrence; [reflexivity|nonempty|exact Hno]. }
    destruct (getFileContent_log network token owner_ repo_ branch None log)
      as [headers Hlog].
    exists headers. unfold sends in *.
    rewrite (ReadResourceRequestHandler_run network URL_new _ _ _ _ _ u _ Hu).
    rewrite Hsplit. unfold bind.
    destruct (getFileContent network token owner_ repo_ branch None log)
      as [[e|text] log']; exact Hlog.
  - intros Hocc.
    destruct (split_occurs (pathname u) (lit "/contents/") ltac:(nonempty) Hocc)
      as (p & q & rest & Hsplit).
    exists q.
    rewrite (ReadResourceRequestHandler_run network URL_new _ _ _ _ _ u _ Hu).
    now rewrite Hsplit.
Qed.

(** X14. Every server that [createGithubRepoServer] returns advertises
    the same name, version and capabilities, and answers list-tools with
    the empty list without sending anything, whatever the configuration
    and whatever was requested before. *)
Theorem created_server_identity_and_tools params log0 server log1 :
  createGithubRepoServer' params log0 = (inr server, log1) ->
  server_name server = lit "@loglm/mcp-server-github-repo" /\
  server_version server = lit "0.1.0" /\
  server_capabilities server = [lit "resources"; lit "tools"] /\
  (forall log, onListTools server log = (inr [], log)).
Proof.
  unfold createGithubRepoServer.
  destruct (truthy (githubPersonalAccessToken params)); [|discriminate].
  destruct (truthy (owner params)); [|discriminate].
  destruct (truthy (repo params)); [|discriminate].
  cbv zeta. unfold bind, new_URL.
  destruct (URL_new _ None) as [base|]; [|discriminate].
  intros H. injection H as <- <-. repeat split.
Qed.

End FurtherBridge.

(** ** The entry point *)

Lemma truthy_opt_false x : truthy_opt x = false <-> unset_or_empty x.
Proof.
  unfold unset_or_empty. destruct x as [[|c s]|]; simpl; split;
    try tauto; try congruence.
  intros [H|H]; discriminate H.
Qed.

Section EntryPoint.

Variable network : Network.
Variable URL_new : URLConstructor.

Local Abbreviation createGithubRepoServer' :=
  (createGithubRepoServer network URL_new).
Local Abbreviation runServer' := (runServer network URL_new).

(** X16. Configuration is checked before anything is built.  A token
    that is unset or empty ends the process with code 1 and the
    message about GITHUB_PERSONAL_ACCESS_TOKEN, whatever the other
    variables; with a token, an owner or a repository name that is unset
    or empty ends it with code 1 and the message about GITHUB_OWNER and
    GITHUB_REPO. *)
Theorem runServer_requires_configuration env log :
  (unset_or_empty (env (lit "GITHUB_PERSONAL_ACCESS_TOKEN")) ->
   runServer' env log =
   (inr ([Diag (lit "GITHUB_PERSONAL_ACCESS_TOKEN environment variable is not set")],
         Exited 1), log)) /\
  (~ unset_or_empty (env (lit "GITHUB_PERSONAL_ACCESS_TOKEN")) ->
   unset_or_empty (env (lit "GITHUB_OWNER")) \/
   unset_or_empty (env (lit "GITHUB_REPO")) ->
   runServer' env log =
   (inr ([Diag (lit "GITHUB_OWNER and GITHUB_REPO environment variables are required")],
         Exited 1), log)).
Proof.
  unfold runServer. cbv zeta. split.
  - intros Ht. apply truthy_opt_false in Ht. now rewrite Ht.
  - intros Ht Hor.
    destruct (truthy_opt (env (lit "GITHUB_PERSONAL_ACCESS_TOKEN"))) eqn:Et.
    2: { apply truthy_opt_false in Et. contradiction. }
    cbn [negb].
    destruct Hor as [H|H]; apply truthy_opt_false in H; rewrite H.
    + reflexivity.
    + now rewrite orb_true_r.
Qed.

(** X17. With a non-empty token, owner and repository name in the
    environment (and a content-base URL the URL constructor accepts) the
    entry point connects the server that [createGithubRepoServer] builds
    from exactly these values and the [GITHUB_BRANCH] variable as it is,
    and reports "GitHub Repo MCP Server running on stdio". *)
Theorem runServer_connects env log token owner_ repo_ base :
  env (lit "GITHUB_PERSONAL_ACCESS_TOKEN") = Some token -> token <> [] ->
  env (lit "GITHUB_OWNER") = Some owner_ -> owner_ <> [] ->
  env (lit "GITHUB_REPO") = Some repo_ -> repo_ <> [] ->
  URL_new (VString (lit "https://api.github.com/repos/" ++ owner_ ++ lit "/"
                    ++ repo_ ++ lit "/contents/")) None = Some base ->
  exists server,
    createGithubRepoServer'
      {| githubPersonalAccessToken := token; owner := owner_; repo := repo_;
         branch := env (lit "GITHUB_BRANCH") |} log = (inr server, log) /\
    runServer' env log =
    (inr ([Diag (lit "GitHub Repo MCP Server running on stdio")],
          Connected server), log).
Proof.
  intros Ht Htne Ho Hone Hr Hrne Hbase.
  unfold runServer. cbv zeta. rewrite Ht, Ho, Hr.
  cbn [truthy_opt narrowed].
  rewrite (truthy_true _ Htne), (truthy_true _ Hone), (truthy_true _ Hrne).
  cbn [negb orb].
  unfold createGithubRepoServer.
  cbn [githubPersonalAccessToken owner repo branch].
  rewrite (truthy_true _ Htne), (truthy_true _ Hone), (truthy_true _ Hrne).
  cbn [negb]. unfold bind, new_URL. rewrite Hbase.
  eexists. split; reflexivity.
Qed.

End EntryPoint.

(** ** More on decoding *)

Section FurtherDecoding.

Import Buffer Spec.

Lemma sextets_skipped s :
  sextets (filter (fun c => negb (skipped c)) s) = sextets s.
Proof.
  induction s as [|c s IH]; [reflexivity|].
  cbn [filter]. unfold skipped at 1.
  cbn [sextets]. cbv zeta.
  destruct (c mod 256 =? 61) eqn:Hpad; cbn [negb andb].
  - cbn [sextets]. cbv zeta. now rewrite Hpad.
  - destruct (unbase64 (c mod 256)) as [v|] eqn:Hv; cbn [negb].
    + cbn [sextets]. cbv zeta. now rewrite Hpad, Hv, IH.
    + exact IH.
Qed.

Lemma from_base64_skipped s :
  from_base64 (filter (fun c => negb (skipped c)) s) = from_base64 s.
Proof. unfold from_base64. now rewrite sextets_skipped. Qed.









Variable network : Network.
Variables token owner_ repo_ : jsstring.

(** X18. Line breaks in the content do no harm.  When the [content] of a
    validated File entry, with the code units the base64 decoder passes
    over removed, is the base64 encoding of the UTF-8 bytes of a
    well-formed string [s], [getFileContent] returns exactly [s] -- as
    for the forge's content, which comes broken into lines. *)
Theorem getFileContent_ignores_line_breaks
    branch path log req r body file s :
  sends (getFileContent network token owner_ repo_ branch path) log req ->
  network log req = Some r ->
  ok r = true ->
  json r = Some body ->
  GitHubFileContentSchema body = Some file ->
  isWellFormed s = true ->
  filter (fun c => negb (skipped c)) (file_content file) =
  base64_encode (utf8_bytes s) ->
  fst (getFileContent network token owner_ repo_ branch path log) = inr s.
Proof.
  intros Hsends Hnet Hok Hjson Hfile Hwf Hcontent.
  rewrite (getFileContent_of_file
             network token owner_ repo_ branch path log req r body file
             Hsends Hnet Hok Hjson Hfile).
  rewrite <- from_base64_skipped, Hcontent.
  now rewrite Decoding.decode_encode.
Qed.


End FurtherDecoding.

(** ** Decoding whatever the entry says *)

Section UnconditionalDecoding.

Variable network : Network.
Variables token owner_ repo_ : jsstring.

(** C10. Whatever its [type] and [encoding] say, a body that passes the
    File-entry schema is answered with the base64-then-UTF-8 decoding of
    its [content].  When the content (line breaks and other skipped code
    units apart) is the base64 encoding of the UTF-8 bytes of a string,
    the answer is that string; for every content it is what the runtime's
    two decoders make of it; and two accepted bodies with the same
    [content] get the same answer, however their other fields differ. *)
Theorem getFileContent_decodes_unconditionally
    branch path log req r body file :
  sends (getFileContent network token owner_ repo_ branch path) log req ->
  network log req = Some r ->
  ok r = true ->
  json r = Some body ->
  GitHubFileContentSchema body = Some file ->
  (forall s,
     Spec.isWellFormed s = true ->
     filter (fun c => negb (skipped c)) (file_content file) =
     Spec.base64_encode (Spec.utf8_bytes s) ->
     fst (getFileContent network token owner_ repo_ branch path log) = inr s) /\
  fst (getFileContent network token owner_ repo_ branch path log) =
  inr (Buffer.toString_utf8 (Buffer.from_base64 (file_content file))) /\
  (forall path' log' req' r' body' file',
     sends (getFileContent network token owner_ repo_ branch path') log' req' ->
     network log' req' = Some r' ->
     ok r' = true ->
     json r' = Some body' ->
     GitHubFileContentSchema body' = Some file' ->
     file_content file' = file_content file ->
     fst (getFileContent network token owner_ repo_ branch path' log') =
     fst (getFileContent network token owner_ repo_ branch path log)).
Proof.
  intros Hsends Hnet Hok Hjson Hfile.
  pose proof (getFileContent_of_file network token owner_ repo_
                branch path log req r body file
                Hsends Hnet Hok Hjson Hfile) as Hrun.
  split; [|split; [exact Hrun|]].
  - intros s Hwf Hcontent. rewrite Hrun.
    rewrite <- from_base64_skipped, Hcontent.
    now rewrite Decoding.decode_encode.
  - intros path' log' req' r' body' file' Hsends' Hnet' Hok' Hjson' Hfile' Hsame.
    rewrite Hrun.
    rewrite (getFileContent_of_file network token owner_ repo_
               branch path' log' req' r' body' file'
               Hsends' Hnet' Hok' Hjson' Hfile').
    now rewrite Hsame.
Qed.

End UnconditionalDecoding.

(** ** No piece of a [split] holds the separator *)

Lemma split_from_pieces sep :
  sep <> [] ->
  forall n s cur,
    (List.length s <= n)%nat ->
    (forall x y, rev cur = x ++ y -> y <> [] -> is_prefix sep (y ++ s) = false) ->
    Forall (fun piece => ~ occurs sep piece) (split_from sep O cur s).
Proof.
  intros Hsep.
  assert (Hclosed : forall cur s,
    (forall x y, rev cur = x ++ y -> y <> [] -> is_prefix sep (y ++ s) = false) ->
    ~ occurs sep (rev cur)).
  { intros cur s Hinv (a & b & Hab).
    assert (Hy : sep ++ b <> []) by (destruct sep; [congruence|discriminate]).
    specialize (Hinv a (sep ++ b) Hab Hy).
    rewrite <- app_assoc, is_prefix_app in Hinv. discriminate Hinv. }
  induction n as [|n IH]; intros s cur Hlen Hinv.
  - destruct s; [|simpl in Hlen; lia].
    cbn [split_from]. constructor; [|constructor]. exact (Hclosed cur [] Hinv).
  - destruct s as [|c s].
    + cbn [split_from]. constructor; [|constructor]. exact (Hclosed cur [] Hinv).
    + cbn [split_from]. simpl in Hlen.
      destruct (is_prefix sep (c :: s)) eqn:E.
      * constructor; [exact (Hclosed cur (c :: s) Hinv)|].
        apply is_prefix_true in E as [b Hb].
        destruct sep as [|x sep']; [congruence|].
        cbn [app] in Hb. injection Hb as -> ->.
        cbn [List.length Nat.pred]. rewrite split_from_skip.
        apply IH.
        -- rewrite length_app in Hlen. lia.
        -- intros x0 y Hxy Hy. cbn [rev] in Hxy.
           destruct x0; destruct y; try discriminate Hxy. congruence.
      * apply IH; [lia|].
        intros x y Hxy Hy. cbn [rev] in Hxy.
        destruct (exists_last Hy) as (y' & c' & ->).
        rewrite app_assoc in Hxy. apply app_inj_tail in Hxy as [Hcur ->].
        rewrite <- app_assoc. cbn [app].
        destruct y' as [|c0 y'].
        -- exact E.
        -- apply (Hinv x (c0 :: y')); [exact Hcur|discriminate].
Qed.

Lemma split_pieces s sep :
  sep <> [] -> Forall (fun piece => ~ occurs sep piece) (split s sep).
Proof.
  intros Hsep. unfold split.
  destruct sep as [|x sep'] eqn:Esep; [congruence|]. rewrite <- Esep in *.
  apply (split_from_pieces sep Hsep (List.length s) s []); [lia|].
  intros x0 y Hxy Hy. destruct x0; destruct y; try discriminate Hxy. congruence.
Qed.

Section UnreachablePaths.

Variable network : Network.
Variable URL_new : URLConstructor.

(** X20. Whatever the URI, the path the read-resource handler passes to
    [getFileContent] is either [undefined] or a string that does not hold
    "/contents/"; so a repository path that itself holds "/contents/" is
    never the path it asks for. *)
Theorem read_resource_path_never_holds_contents
    token owner_ repo_ branch uri u log :
  URL_new (VString uri) None = Some u ->
  exists path,
    ReadResourceRequestHandler network URL_new token owner_ repo_ branch uri log =
    (content <- getFileContent network token owner_ repo_ branch path ;;
     ret [ {| content_uri := uri;
              content_mimeType := lit "text/plain";
              content_text := content |} ]) log /\
    (forall p, path = Some p -> ~ occurs (lit "/contents/") p) /\
    (forall full, occurs (lit "/contents/") full -> path <> Some full).
Proof.
  intros Hu.
  exists (at_index (split (pathname u) (lit "/contents/")) 1).
  assert (Hfree : forall p,
            at_index (split (pathname u) (lit "/contents/")) 1 = Some p ->
            ~ occurs (lit "/contents/") p).
  { intros p Hp.
    pose proof (split_pieces (pathname u) (lit "/contents/") ltac:(nonempty))
      as Hall.
    unfold at_index in Hp. apply nth_error_In in Hp.
    rewrite Forall_forall in Hall. exact (Hall p Hp). }
  split; [|split].
  - exact (ReadResourceRequestHandler_run network URL_new _ _ _ _ _ u _ Hu).
  - exact Hfree.
  - intros full Hocc Hpath. exact (Hfree full Hpath Hocc).
Qed.

End UnreachablePaths.

(** ** Reading a listed file *)

Section ReadingAFile.

Variable network : Network.
Variable URL_new : URLConstructor.

(** X13. For a URI whose path component holds "/contents/" exactly once
    -- what list-resources hands out for a file outside any directory
    named [contents] -- the read-resource handler sends its one request
    to [https://api.github.com/repos/{owner}/{repo}/contents/] followed by
    everything after "/contents/" (and by [?ref=<branch>] when a branch is
    set). *)
Theorem read_resource_requests_the_file
    token owner_ repo_ branch uri u pre post log :
  URL_new (VString uri) None = Some u ->
  pathname u = pre ++ lit "/contents/" ++ post ->
  (forall a b, pre ++ lit "/contents/" ++ post = a ++ lit "/contents/" ++ b ->
               a = pre) ->
  exists headers,
    sends (ReadResourceRequestHandler network URL_new
             token owner_ repo_ branch uri) log
      {| req_url :=
           (lit "https://api.github.com/repos/" ++ owner_ ++ lit "/"
            ++ repo_ ++ lit "/contents/" ++ post)
           ++ (if truthy_opt branch then lit "?ref=" ++ template branch
               else []);
         req_headers := headers |}.
Proof.
  intros Hu Hpath Huniq.
  destruct (getFileContent_log network token owner_ repo_ branch (Some post) log)
    as [headers Hlog].
  exists headers. unfold sends in *.
  rewrite (read_resource_single_contents network URL_new
             token owner_ repo_ branch uri u pre post log Hu Hpath Huniq).
  unfold bind.
  destruct (getFileContent network token owner_ repo_ branch (Some post) log)
    as [[e|text] log']; exact Hlog.
Qed.

End ReadingAFile.

(** ** The further properties on the sample repository *)

Import Cases.

(** A concrete string does not hold the separator when [split] leaves it
    whole. *)
Ltac no_occurrence :=
  let H := fresh in
  intros H;
  match type of H with
  | occurs ?sep ?s =>
      let Hsep := fresh in
      let H' := fresh in
      assert (Hsep : sep <> []) by nonempty;
      destruct (split_occurs s sep Hsep H) as (? & ? & ? & H');
      vm_compute in H'; discriminate H'
  end.

(** Walk down a concrete list [l] in [l = a ++ sep ++ b] to find [a]. *)
Ltac locate_occurrence H a :=
  repeat (destruct a as [|? a];
          [ try (exfalso; vm_compute in H; discriminate H)
          | vm_compute in H; first [discriminate H | injection H as ? H]; subst ]).

Lemma getFileContent_rejects_malformed_object_witness :
  fst (getFileContent (answers (success submodule))
         (lit "ghp_example") (lit "acme") (lit "widgets") None
         (Some (lit "vendor")) []) = inl ZodError.
Proof.
  eapply (getFileContent_rejects_malformed_object
            (answers (success submodule))
            (lit "ghp_example") (lit "acme") (lit "widgets") None
            (Some (lit "vendor")) []
            (request (lit "https://api.github.com/repos/acme/widgets/contents/vendor"))
            (success submodule) _ "content"%string).
  - vm_compute. reflexivity.
  - reflexivity.
  - reflexivity.
  - reflexivity.
  - unfold file_string_keys. simpl. tauto.
  - vm_compute. reflexivity.
Defined.

Lemma getFileContent_rejects_malformed_listing_witness :
  fst (getFileContent (answers (success (VArray [src; VNull])))
         (lit "ghp_example") (lit "acme") (lit "widgets") None
         (Some (lit "src")) []) = inl ZodError /\
  ~ is_invalid_input_error ZodError.
Proof.
  eapply (getFileContent_rejects_malformed_listing
            (answers (success (VArray [src; VNull])))
            (lit "ghp_example") (lit "acme") (lit "widgets") None
            (Some (lit "src")) []
            (request (lit "https://api.github.com/repos/acme/widgets/contents/src"))
            (success (VArray [src; VNull])) [src; VNull]).
  - vm_compute. reflexivity.
  - reflexivity.
  - reflexivity.
  - reflexivity.
  - apply Exists_cons_tl, Exists_cons_hd. reflexivity.
Defined.

Lemma validation_only_on_file_read_witness :
  (exists files,
     fst (listFiles (answers (success VNull))
            (lit "ghp_example") (lit "acme") (lit "widgets") None
            (Some (lit "x")) []) = inr files) /\
  fst (getFileContent (answers (success VNull))
         (lit "ghp_example") (lit "acme") (lit "widgets") None
         (Some (lit "x")) []) = inl ZodError.
Proof.
  eapply (validation_only_on_file_read
            (answers (success VNull))
            (lit "ghp_example") (lit "acme") (lit "widgets") None
            (Some (lit "x")) []
            (request (lit "https://api.github.com/repos/acme/widgets/contents/x"))
            (request (lit "https://api.github.com/repos/acme/widgets/contents/x"))
            (success VNull) VNull).
  - vm_compute. reflexivity.
  - vm_compute. reflexivity.
  - reflexivity.
  - reflexivity.
  - reflexivity.
  - reflexivity.
  - reflexivity.
Defined.

Lemma list_resources_propagates_failure_witness :
  ListResourcesRequestHandler (answers not_found) plain_URL
    (lit "ghp_example") (lit "acme") (lit "widgets") None base []
  = (inl (Error (lit "GitHub API error: " ++ lit "Not Found")),
     snd (listFiles (answers not_found)
            (lit "ghp_example") (lit "acme") (lit "widgets") None None [])).
Proof.
  apply (list_resources_propagates_failure
           (answers not_found) plain_URL
           (lit "ghp_example") (lit "acme") (lit "widgets") None base []).
  vm_compute. reflexivity.
Defined.

Lemma list_resources_all_or_nothing_witness :
  fst (ListResourcesRequestHandler (answers (success (VArray [readme; VNull])))
         plain_URL (lit "ghp_example") (lit "acme") (lit "widgets") None base [])
  = inl TypeError.
Proof.
  apply (proj2 (list_resources_all_or_nothing
                  (answers (success (VArray [readme; VNull]))) plain_URL
                  (lit "ghp_example") (lit "acme") (lit "widgets") None base []
                  [readme; VNull] ltac:(vm_compute; reflexivity))).
  intros Hall. inversion Hall as [|? ? _ Hrest]. inversion Hrest as [|? ? Hnull _].
  destruct Hnull as (path & u & Hpath & _). discriminate Hpath.
Defined.

Lemma read_resource_response_shape_witness :
  exists path text,
    fst (getFileContent (answers (success readme))
           (lit "ghp_example") (lit "acme") (lit "widgets") None path [])
    = inr text /\
    [ {| content_uri := lit "https://api.github.com/repos/acme/widgets/contents/README.md";
         content_mimeType := lit "text/plain";
         content_text := lit "hello world" |} ] =
    [ {| content_uri := lit "https://api.github.com/repos/acme/widgets/contents/README.md";
         content_mimeType := lit "text/plain";
         content_text := text |} ].
Proof.
  apply (read_resource_response_shape
           (answers (success readme)) plain_URL
           (lit "ghp_example") (lit "acme") (lit "widgets") None
           (lit "https://api.github.com/repos/acme/widgets/contents/README.md") []).
  vm_compute. reflexivity.
Defined.

Lemma read_resource_at_most_one_request_witness :
  ReadResourceRequestHandler (answers (success readme)) rejecting_URL
    (lit "ghp_example") (lit "acme") (lit "widgets") None (lit "not a url") []
  = (inl TypeError, []) /\
  exists req,
    sends (ReadResourceRequestHandler (answers (success readme)) plain_URL
             (lit "ghp_example") (lit "acme") (lit "widgets") None
             (lit "https://api.github.com/repos/acme/widgets/contents/README.md"))
      [] req.
Proof.
  split.
  - apply (proj1 (read_resource_at_most_one_request
                    (answers (success readme)) rejecting_URL
                    (lit "ghp_example") (lit "acme") (lit "widgets") None
                    (lit "not a url") [])).
    reflexivity.
  - eapply (proj2 (read_resource_at_most_one_request
                     (answers (success readme)) plain_URL
                     (lit "ghp_example") (lit "acme") (lit "widgets") None
                     (lit "https://api.github.com/repos/acme/widgets/contents/README.md")
                     [])).
    vm_compute. reflexivity.
Defined.

Lemma read_resource_without_contents_witness :
  exists headers,
    sends (ReadResourceRequestHandler (answers not_found) plain_URL
             (lit "ghp_example") (lit "acme") (lit "widgets") None
             (lit "https://api.github.com/repos/acme/widgets/README.md")) []
      {| req_url :=
           (lit "https://api.github.com/repos/" ++ lit "acme" ++ lit "/"
            ++ lit "widgets" ++ lit "/contents/" ++ lit "undefined") ++ [];
         req_headers := headers |}.
Proof.
  apply (proj1 (read_resource_without_contents
                  (answers not_found) plain_URL
                  (lit "ghp_example") (lit "acme") (lit "widgets") None
                  (lit "https://api.github.com/repos/acme/widgets/README.md")
                  {| href := lit "https://api.github.com/repos/acme/widgets/README.md";
                     pathname := lit "/repos/acme/widgets/README.md" |}
                  [] ltac:(vm_compute; reflexivity))).
  cbn [pathname]. no_occurrence.
Defined.

Lemma read_resource_single_contents_witness :
  ReadResourceRequestHandler (answers (success readme)) plain_URL
    (lit "ghp_example") (lit "acme") (lit "widgets") None
    (lit "https://api.github.com/repos/acme/widgets/contents/README.md") [] =
  (content <- getFileContent (answers (success readme))
                (lit "ghp_example") (lit "acme") (lit "widgets") None
                (Some (lit "README.md")) ;;
   ret [ {| content_uri :=
              lit "https://api.github.com/repos/acme/widgets/contents/README.md";
            content_mimeType := lit "text/plain";
            content_text := content |} ]) [].
Proof.
  apply (read_resource_single_contents
           (answers (success readme)) plain_URL
           (lit "ghp_example") (lit "acme") (lit "widgets") None
           (lit "https://api.github.com/repos/acme/widgets/contents/README.md")
           {| href := lit "https://api.github.com/repos/acme/widgets/contents/README.md";
              pathname := lit "/repos/acme/widgets/contents/README.md" |}
           (lit "/repos/acme/widgets") (lit "README.md") []).
  - vm_compute. reflexivity.
  - vm_compute. reflexivity.
  - intros a b H. locate_occurrence H a. reflexivity.
Defined.

Lemma created_server_identity_and_tools_witness :
  exists server,
    createGithubRepoServer (answers not_found) plain_URL acme []
    = (inr server, []) /\
    server_name server = lit "@loglm/mcp-server-github-repo" /\
    server_version server = lit "0.1.0" /\
    server_capabilities server = [lit "resources"; lit "tools"] /\
    (forall log, onListTools server log = (inr [], log)).
Proof.
  eexists.
  assert (Hserver :
    createGithubRepoServer (answers not_found) plain_URL acme []
    = (inr ?[server], [])) by (vm_compute; reflexivity).
  split; [exact Hserver|].
  exact (created_server_identity_and_tools
           (answers not_found) plain_URL acme [] _ [] Hserver).
Defined.

Lemma runServer_requires_configuration_witness :
  runServer (answers not_found) plain_URL
    (environment4 (Some []) (Some (lit "acme")) (Some (lit "widgets")) None) []
  = (inr ([Diag (lit "GITHUB_PERSONAL_ACCESS_TOKEN environment variable is not set")],
          Exited 1), [])
  /\ runServer (answers not_found) plain_URL
       (environment4 (Some (lit "ghp_example")) (Some (lit "acme")) None None) []
     = (inr ([Diag (lit "GITHUB_OWNER and GITHUB_REPO environment variables are required")],
             Exited 1), []).
Proof.
  split.
  - apply (proj1 (runServer_requires_configuration
                    (answers not_found) plain_URL _ [])).
    right. vm_compute. reflexivity.
  - apply (proj2 (runServer_requires_configuration
                    (answers not_found) plain_URL _ [])).
    + intros [H|H]; vm_compute in H; discriminate H.
    + right. left. vm_compute. reflexivity.
Defined.

Lemma runServer_connects_witness :
  exists server,
    createGithubRepoServer (answers not_found) plain_URL
      {| githubPersonalAccessToken := lit "ghp_example"; owner := lit "acme";
         repo := lit "widgets";
         branch := environment (Some (lit "develop")) (lit "GITHUB_BRANCH") |} []
    = (inr server, []) /\
    runServer (answers not_found) plain_URL (environment (Some (lit "develop"))) []
    = (inr ([Diag (lit "GitHub Repo MCP Server running on stdio")],
            Connected server), []).
Proof.
  apply (runServer_connects
           (answers not_found) plain_URL (environment (Some (lit "develop"))) []
           (lit "ghp_example") (lit "acme") (lit "widgets") base).
  - vm_compute. reflexivity.
  - nonempty.
  - vm_compute. reflexivity.
  - nonempty.
  - vm_compute. reflexivity.
  - nonempty.
  - vm_compute. reflexivity.
Defined.

Lemma getFileContent_ignores_line_breaks_witness :
  fst (getFileContent (answers (success wrapped))
         (lit "ghp_example") (lit "acme") (lit "widgets") None
         (Some (lit "README.md")) []) = inr (lit "hello world").
Proof.
  eapply (getFileContent_ignores_line_breaks
            (answers (success wrapped))
            (lit "ghp_example") (lit "acme") (lit "widgets") None
            (Some (lit "README.md")) []
            (request (lit "https://api.github.com/repos/acme/widgets/contents/README.md"))
            (success wrapped) wrapped).
  - vm_compute. reflexivity.
  - reflexivity.
  - reflexivity.
  - reflexivity.
  - vm_compute. reflexivity.
  - vm_compute. reflexivity.
  - vm_compute. reflexivity.
Defined.


Lemma read_resource_requests_the_file_witness :
  exists headers,
    sends (ReadResourceRequestHandler (answers (success readme)) plain_URL
             (lit "ghp_example") (lit "acme") (lit "widgets")
             (Some (lit "develop"))
             (lit "https://api.github.com/repos/acme/widgets/contents/src/index.ts"))
      []
      {| req_url :=
           (lit "https://api.github.com/repos/" ++ lit "acme" ++ lit "/"
            ++ lit "widgets" ++ lit "/contents/" ++ lit "src/index.ts")
           ++ lit "?ref=" ++ lit "develop";
         req_headers := headers |}.
Proof.
  apply (read_resource_requests_the_file
           (answers (success readme)) plain_URL
           (lit "ghp_example") (lit "acme") (lit "widgets")
           (Some (lit "develop"))
           (lit "https://api.github.com/repos/acme/widgets/contents/src/index.ts")
           {| href := lit "https://api.github.com/repos/acme/widgets/contents/src/index.ts";
              pathname := lit "/repos/acme/widgets/contents/src/index.ts" |}
           (lit "/repos/acme/widgets") (lit "src/index.ts") []).
  - vm_compute. reflexivity.
  - vm_compute. reflexivity.
  - intros a b H. locate_occurrence H a. reflexivity.
Defined.

Lemma read_resource_path_never_holds_contents_witness :
  exists path,
    ReadResourceRequestHandler (answers (success readme)) plain_URL
      (lit "ghp_example") (lit "acme") (lit "widgets") None
      (lit "https://api.github.com/repos/acme/widgets/contents/docs/contents/guide.md")
      [] =
    (content <- getFileContent (answers (success readme))
                  (lit "ghp_example") (lit "acme") (lit "widgets") None path ;;
     ret [ {| content_uri :=
                lit "https://api.github.com/repos/acme/widgets/contents/docs/contents/guide.md";
              content_mimeType := lit "text/plain";
              content_text := content |} ]) [] /\
    (forall p, path = Some p -> ~ occurs (lit "/contents/") p) /\
    (forall full, occurs (lit "/contents/") full -> path <> Some full).
Proof.
  apply (read_resource_path_never_holds_contents
           (answers (success readme)) plain_URL
           (lit "ghp_example") (lit "acme") (lit "widgets") None
           (lit "https://api.github.com/repos/acme/widgets/contents/docs/contents/guide.md")
           {| href := lit "https://api.github.com/repos/acme/widgets/contents/docs/contents/guide.md";
              pathname := lit "/repos/acme/widgets/contents/docs/contents/guide.md" |}
           []).
  vm_compute. reflexivity.
Defined.

Lemma getFileContent_decodes_unconditionally_witness :
  exists file,
    GitHubFileContentSchema mislabelled = Some file /\
    file_type file = lit "symlink" /\
    file_encoding file = lit "none" /\
    fst (getFileContent (answers (success mislabelled))
           (lit "ghp_example") (lit "acme") (lit "widgets") None
           (Some (lit "README.md")) []) = inr (lit "hello world").
Proof.
  eexists. split; [vm_compute; reflexivity|].
  split; [reflexivity|]. split; [reflexivity|].
  refine (proj1 (getFileContent_decodes_unconditionally
                   (answers (success mislabelled))
                   (lit "ghp_example") (lit "acme") (lit "widgets") None
                   (Some (lit "README.md")) []
                   (request (lit "https://api.github.com/repos/acme/widgets/contents/README.md"))
                   (success mislabelled) mislabelled _ _ _ _ _ _)
            (lit "hello world") _ _).
  - vm_compute. reflexivity.
  - reflexivity.
  - reflexivity.
  - reflexivity.
  - vm_compute. reflexivity.
  - vm_compute. reflexivity.
  - vm_compute. reflexivity.
Defined.
